(** * Timesheet calculator: a shallow embedding of [app.py]

    The extraction pipeline of the Streamlit application:
    [is_valid_excel_file], [detect_headers], [extract_developer_name],
    [clean_and_parse_date], [extract_data_from_xlsx], [process_zip_file]
    and [create_monthly_summary].

    Python [str] values are modelled as [string] (ASCII code units), a
    [DataFrame] read with [header=None] as a column count and a list of
    rows of cells, and a float64 of the [Hours] column as the rational it
    denotes; where the rounding of a sum matters, the sum is a parameter. *)

From Stdlib Require Import Bool Arith List Lia ZArith QArith.
From Stdlib Require Import Ascii String DecimalString.
From Stdlib Require Import Permutation Sorted.
Import ListNotations.

Local Close Scope Q_scope.
Local Open Scope string_scope.
Local Open Scope bool_scope.
Local Open Scope nat_scope.

(** ** Python string methods *)

Module PyStr.

Definition code (c : ascii) : nat := nat_of_ascii c.

(** The letters, the cases and the blanks are those of ASCII.  Python
    knows the ones of every script: the methods below are Python's on the
    texts that [isascii] accepts. *)
Definition is_upper (c : ascii) : bool := (65 <=? code c) && (code c <=? 90).
Definition is_lower (c : ascii) : bool := (97 <=? code c) && (code c <=? 122).
Definition is_alpha (c : ascii) : bool := is_upper c || is_lower c.
Definition is_digit (c : ascii) : bool := (48 <=? code c) && (code c <=? 57).

(** [str.isspace] on the ASCII range: TAB..CR, FS..US and the blank. *)
Definition is_space (c : ascii) : bool :=
  ((9 <=? code c) && (code c <=? 13)) || ((28 <=? code c) && (code c <=? 32)).

Definition to_lower (c : ascii) : ascii :=
  if is_upper c then ascii_of_nat (code c + 32) else c.
Definition to_upper (c : ascii) : ascii :=
  if is_lower c then ascii_of_nat (code c - 32) else c.

(** [s.lower()] *)
Fixpoint lower (s : string) : string :=
  match s with
  | EmptyString => EmptyString
  | String c s' => String (to_lower c) (lower s')
  end.

(** [s.lstrip()], [s.rstrip()], [s.strip()] *)
Fixpoint lstrip (s : string) : string :=
  match s with
  | EmptyString => EmptyString
  | String c s' => if is_space c then lstrip s' else s
  end.

Fixpoint rstrip (s : string) : string :=
  match s with
  | EmptyString => EmptyString
  | String c s' =>
      match rstrip s' with
      | EmptyString => if is_space c then EmptyString else String c EmptyString
      | r => String c r
      end
  end.

Definition strip (s : string) : string := rstrip (lstrip s).

(** [s.title()]: a cased character is upper-cased when the character
    before it is not cased, lower-cased otherwise. *)
Fixpoint title_from (prev_cased : bool) (s : string) : string :=
  match s with
  | EmptyString => EmptyString
  | String c s' =>
      if is_alpha c
      then String (if prev_cased then to_lower c else to_upper c) (title_from true s')
      else String c (title_from false s')
  end.

Definition title (s : string) : string := title_from false s.

Fixpoint all_alpha (s : string) : bool :=
  match s with
  | EmptyString => true
  | String c s' => is_alpha c && all_alpha s'
  end.

(** [s.isalpha()]: false on the empty string. *)
Definition isalpha (s : string) : bool :=
  match s with
  | EmptyString => false
  | _ => all_alpha s
  end.

(** [s.startswith(p)] *)
Fixpoint startswith (p s : string) : bool :=
  match p with
  | EmptyString => true
  | String a p' =>
      match s with
      | EmptyString => false
      | String b s' => Ascii.eqb a b && startswith p' s'
      end
  end.

(** [sub in s] *)
Fixpoint contains (sub s : string) : bool :=
  startswith sub s ||
  match s with
  | EmptyString => false
  | String _ s' => contains sub s'
  end.

(** [s.endswith(suf)] *)
Fixpoint endswith (suf s : string) : bool :=
  String.eqb s suf ||
  match s with
  | EmptyString => false
  | String _ s' => endswith suf s'
  end.


(** [c in s] for a one-character [c] *)
Fixpoint has_char (sep : ascii) (s : string) : bool :=
  match s with
  | EmptyString => false
  | String c s' => Ascii.eqb c sep || has_char sep s'
  end.

(** [s.split(sep)[0]]: the text before the first [sep]. *)
Fixpoint split_first (sep : ascii) (s : string) : string :=
  match s with
  | EmptyString => EmptyString
  | String c s' => if Ascii.eqb c sep then EmptyString else String c (split_first sep s')
  end.

(** [s.split(sep)[-1]]: the text after the last [sep]. *)
Fixpoint split_last (sep : ascii) (s : string) : string :=
  match s with
  | EmptyString => EmptyString
  | String c s' =>
      if has_char sep s' then split_last sep s'
      else if Ascii.eqb c sep then s' else s
  end.

(** [s.replace(old, '')]: occurrences are removed left to right and do
    not overlap; [skip] counts the characters of the occurrence being
    removed that are still to be dropped. *)
Fixpoint remove_from (old : string) (skip : nat) (s : string) : string :=
  match s with
  | EmptyString => EmptyString
  | String c s' =>
      match skip with
      | S k => remove_from old k s'
      | O =>
          match old with
          | EmptyString => String c (remove_from old O s')
          | String _ old' =>
              if startswith old s then remove_from old (String.length old') s'
              else String c (remove_from old O s')
          end
      end
  end.

Definition remove_all (old s : string) : string := remove_from old 0 s.

End PyStr.

Import PyStr.

(** ** EntryFilter: [is_valid_excel_file] *)

Definition is_valid_excel_file (filename : string) : bool :=
  if startswith "__MACOSX/" filename || contains "._" filename then false
  else if startswith "." filename || contains "/.DS_Store" filename then false
  else if negb (endswith ".xlsx" (lower filename) || endswith ".xls" (lower filename)) then false
  else if endswith "/" filename then false
  else true.

(** ** NameInferer: [extract_developer_name] *)

(** The name without its path and without the extension texts. *)
Definition base_name_of (filename : string) : string :=
  let base_name := split_last "/" filename in
  remove_all ".xls" (remove_all ".xlsx" base_name).

Definition extract_developer_name (filename : string) : string :=
  let base_name := base_name_of filename in
  if has_char "*" base_name then
    title (strip (split_first "*" base_name))
  else
    let first_words := strip (split_first "_" base_name) in
    let first_word := strip (split_first " " first_words) in
    if negb (String.eqb first_word "") && isalpha first_word
    then title first_word
    else "Unknown".

(** [tok] is the text of [s] before its first [sep]: all of [s] when [s]
    has no [sep]. *)
Definition before_first (sep : ascii) (s tok : string) : Prop :=
  has_char sep tok = false /\
  (s = tok \/ exists rest, s = tok ++ String sep rest).

(** ** Cells and grids *)

(** A cell of a sheet read by [pd.read_excel(..., header=None)]: a missing
    value (NaN), a text or a number. *)
Inductive Cell : Type :=
| CEmpty
| CText (s : string)
| CNum (q : Q).

(** The frame: [len(df.columns)] and the rows, [len(df)] of them.  A row
    shorter than [columns] reads as NaN past its end. *)
Record DataFrame : Type := mkDataFrame {
  columns : nat;
  rows : list (list Cell)
}.

Definition len (df : DataFrame) : nat := List.length (rows df).

(** [df.iloc[r, c]] *)
Definition iloc (df : DataFrame) (r c : nat) : Cell :=
  nth c (nth r (rows df) []) CEmpty.

(** [df.empty]: no row or no column. *)
Definition df_empty (df : DataFrame) : bool :=
  (len df =? 0) || (columns df =? 0).

(** A calendar date, the date part of a [Timestamp]. *)
Record Date : Type := mkDate {
  year : Z;
  month : Z;
  day : Z
}.

(** The library routines the program calls and whose code is not part of
    it: the text of a float ([str]), [pd.to_numeric] on a text and the
    format-free [pd.to_datetime(s, errors='coerce')]. *)
Class Pandas : Type := {
  str_float : Q -> string;
  to_numeric_text : string -> option Q;
  to_datetime_flexible : string -> option Date
}.

(** [str(v)] *)
Definition str `{Pandas} (v : Cell) : string :=
  match v with
  | CEmpty => "nan"
  | CText s => s
  | CNum q => str_float q
  end.

(** [pd.isna(v)] *)
Definition isna (v : Cell) : bool :=
  match v with
  | CEmpty => true
  | _ => false
  end.

(** ** HeaderLocator: [detect_headers] *)

Definition date_keywords : list string := ["date"; "day"; "datum"; "fecha"].
Definition hours_keywords : list string :=
  ["hour"; "time"; "work"; "duration"; "hrs"; "horas"].

(** [any(keyword in cell_val for keyword in kws)] *)
Definition any_keyword (kws : list string) (cell_val : string) : bool :=
  existsb (fun keyword => contains keyword cell_val) kws.

(** The four locals of the row loop. *)
Record RowScan : Type := mkRowScan {
  row_has_date : bool;
  row_has_hours : bool;
  temp_date_col : option nat;
  temp_hours_col : option nat
}.

Definition scan_init : RowScan := mkRowScan false false None None.

(** [str(df.iloc[r, c]).lower().strip()] *)
Definition cell_val `{Pandas} (df : DataFrame) (r c : nat) : string :=
  strip (lower (str (iloc df r c))).

(** One turn of the inner loop, for column [c] of row [r]. *)
Definition scan_cell `{Pandas} (df : DataFrame) (r : nat) (st : RowScan) (c : nat) : RowScan :=
  if (len df <=? r) || (columns df <=? c) then st
  else
    let v := cell_val df r c in
    let st1 :=
      if any_keyword date_keywords v
      then mkRowScan true (row_has_hours st) (Some c) (temp_hours_col st)
      else st in
    if any_keyword hours_keywords v
    then mkRowScan (row_has_date st1) true (temp_date_col st1) (Some c)
    else st1.

(** The inner loop [for c in range(len(df.columns))]. *)
Definition scan_row `{Pandas} (df : DataFrame) (r : nat) : RowScan :=
  fold_left (scan_cell df r) (seq 0 (columns df)) scan_init.

(** The outer loop over the row indices still to visit, left at the first
    row that has both kinds of header. *)
Fixpoint find_header `{Pandas} (df : DataFrame) (rs : list nat)
  : option nat * option nat * option nat :=
  match rs with
  | [] => (None, None, None)
  | r :: rs' =>
      let st := scan_row df r in
      if row_has_date st && row_has_hours st
      then (Some r, temp_date_col st, temp_hours_col st)
      else find_header df rs'
  end.

(** Returns [(header_row, date_col, hours_col)]. *)
Definition detect_headers `{Pandas} (df : DataFrame)
  : option nat * option nat * option nat :=
  find_header df (seq 0 (Nat.min 10 (len df))).

(** *** What the locator is to find *)

(** [text] has one of the keywords as a part. *)
Definition mentions (kws : list string) (text : string) : Prop :=
  exists kw pre post, In kw kws /\ text = pre ++ kw ++ post.

Definition date_cell `{Pandas} (df : DataFrame) (r c : nat) : Prop :=
  mentions date_keywords (cell_val df r c).

Definition hours_cell `{Pandas} (df : DataFrame) (r c : nat) : Prop :=
  mentions hours_keywords (cell_val df r c).

(** [c] is the highest of the columns below [n] that satisfy [P]. *)
Definition last_col (P : nat -> Prop) (n c : nat) : Prop :=
  c < n /\ P c /\ forall c', c < c' -> c' < n -> ~ P c'.

(** Row [r] has a date header and an hours header. *)
Definition qualifies `{Pandas} (df : DataFrame) (r : nat) : Prop :=
  (exists c, c < columns df /\ date_cell df r c) /\
  (exists c, c < columns df /\ hours_cell df r c).

(** The highest index below [n] at which [f] holds. *)
Fixpoint last_index (f : nat -> bool) (n : nat) : option nat :=
  match n with
  | O => None
  | S k => if f k then Some k else last_index f k
  end.

Definition is_some {A : Type} (o : option A) : bool :=
  match o with
  | Some _ => true
  | None => false
  end.

(** The two tests of the inner loop on the cell at row [r], column [c]. *)
Definition date_at `{Pandas} (df : DataFrame) (r c : nat) : bool :=
  any_keyword date_keywords (cell_val df r c).
Definition hours_at `{Pandas} (df : DataFrame) (r c : nat) : bool :=
  any_keyword hours_keywords (cell_val df r c).

(** The test that ends the outer loop. *)
Definition found `{Pandas} (df : DataFrame) (r : nat) : bool :=
  row_has_date (scan_row df r) && row_has_hours (scan_row df r).

(** The rows the search looks at: [range(min(10, len(df)))]. *)
Definition window (df : DataFrame) : nat := Nat.min 10 (len df).

(** ** DateNormalizer: [clean_and_parse_date] *)

(** *** The calendar *)

Definition is_leap (y : Z) : bool :=
  ((y mod 4 =? 0) && negb (y mod 100 =? 0) || (y mod 400 =? 0))%Z.

Definition days_in_month (y m : Z) : Z :=
  (if m =? 2 then (if is_leap y then 29 else 28)
   else if (m =? 4) || (m =? 6) || (m =? 9) || (m =? 11) then 30
   else 31)%Z.

(** The dates of the calendar in the years a [Timestamp] holds in full,
    1678 to 2261: its nanoseconds run from 1677-09-21 to 2262-04-11, and
    [pd.to_datetime] raises on a date outside of them. *)
Definition valid_date (d : Date) : bool :=
  ((1678 <=? year d) && (year d <=? 2261) &&
   (1 <=? month d) && (month d <=? 12) &&
   (1 <=? day d) && (day d <=? days_in_month (year d) (month d)))%Z.

Definition month_names : list string :=
  ["january"; "february"; "march"; "april"; "may"; "june"; "july";
   "august"; "september"; "october"; "november"; "december"].

Definition month_abbrs : list string :=
  ["jan"; "feb"; "mar"; "apr"; "may"; "jun"; "jul"; "aug"; "sep"; "oct";
   "nov"; "dec"].

(** *** [strptime] with an explicit format

    [pd.to_datetime(s, format=fmt)] turns the format into a regular
    expression, takes its first match at the start of [s] (alternatives
    are tried in the order of the expression, with backtracking) and
    fails when text remains after the match. *)

Inductive directive : Type :=
| DYear        (* %Y : \d\d\d\d *)
| DMonth       (* %m : 1[0-2]|0[1-9]|[1-9] *)
| DDay         (* %d : 3[01]|[12]\d|0[1-9]|[1-9]| [1-9] *)
| DMonthName   (* %B *)
| DMonthAbbr   (* %b *)
| DSpace       (* a blank of the format : \s+ *)
| DLit (c : ascii).

(** The directives of a format; [None] for a directive the formats of the
    program do not use.  Each blank of a format stands for [\s+]; the
    formats of the program have no two blanks in a row. *)
Fixpoint compile (fmt : string) : option (list directive) :=
  match fmt with
  | EmptyString => Some []
  | String c rest =>
      if Ascii.eqb c "%" then
        match rest with
        | EmptyString => None
        | String k rest' =>
            let d :=
              if Ascii.eqb k "Y" then Some DYear
              else if Ascii.eqb k "m" then Some DMonth
              else if Ascii.eqb k "d" then Some DDay
              else if Ascii.eqb k "B" then Some DMonthName
              else if Ascii.eqb k "b" then Some DMonthAbbr
              else None in
            match d, compile rest' with
            | Some d, Some ds => Some (d :: ds)
            | _, _ => None
            end
        end
      else
        match compile rest with
        | Some ds => Some ((if is_space c then DSpace else DLit c) :: ds)
        | None => None
        end
  end.

Inductive capture : Type :=
| CapY (v : Z)
| CapM (v : Z)
| CapD (v : Z)
| CapNone.

Definition digit_val (c : ascii) : Z := Z.of_nat (code c - 48).

Definition in_range (lo hi : Z) (c : ascii) : bool :=
  (is_digit c && (lo <=? digit_val c) && (digit_val c <=? hi))%Z.

Definition two_chars (p : ascii -> ascii -> bool) (s : string) : list (Z * string) :=
  match s with
  | String a (String b rest) =>
      if p a b then [((10 * digit_val a + digit_val b)%Z, rest)] else []
  | _ => []
  end.

Definition one_char (p : ascii -> bool) (s : string) : list (Z * string) :=
  match s with
  | String a rest => if p a then [(digit_val a, rest)] else []
  | _ => []
  end.

Definition year_alts (s : string) : list (Z * string) :=
  match s with
  | String a (String b (String c (String d rest))) =>
      if is_digit a && is_digit b && is_digit c && is_digit d
      then [((1000 * digit_val a + 100 * digit_val b + 10 * digit_val c + digit_val d)%Z, rest)]
      else []
  | _ => []
  end.

Definition month_alts (s : string) : list (Z * string) :=
  two_chars (fun a b => Ascii.eqb a "1" && in_range 0 2 b) s ++
  two_chars (fun a b => Ascii.eqb a "0" && in_range 1 9 b) s ++
  one_char (in_range 1 9) s.

Definition day_alts (s : string) : list (Z * string) :=
  two_chars (fun a b => Ascii.eqb a "3" && in_range 0 1 b) s ++
  two_chars (fun a b => in_range 1 2 a && is_digit b) s ++
  two_chars (fun a b => Ascii.eqb a "0" && in_range 1 9 b) s ++
  one_char (in_range 1 9) s ++
  match s with
  | String a (String b rest) =>
      if Ascii.eqb a " " && in_range 1 9 b then [(digit_val b, rest)] else []
  | _ => []
  end.

Fixpoint drop (n : nat) (s : string) : string :=
  match n, s with
  | S k, String _ s' => drop k s'
  | _, _ => s
  end.

(** The month names matched without regard to case, numbered from [i];
    no name starts with another one, so at most one of them matches. *)
Fixpoint name_alts (names : list string) (i : Z) (s : string) : list (Z * string) :=
  match names with
  | [] => []
  | n :: names' =>
      (if startswith n (lower s) then [(i, drop (String.length n) s)] else []) ++
      name_alts names' (i + 1)%Z s
  end.

(** [\s+], greedy: the longest run of blanks first. *)
Fixpoint space_alts (s : string) : list string :=
  match s with
  | EmptyString => []
  | String c s' => if is_space c then space_alts s' ++ [s'] else []
  end.

Definition alts (d : directive) (s : string) : list (capture * string) :=
  match d with
  | DYear => map (fun '(v, r) => (CapY v, r)) (year_alts s)
  | DMonth => map (fun '(v, r) => (CapM v, r)) (month_alts s)
  | DDay => map (fun '(v, r) => (CapD v, r)) (day_alts s)
  | DMonthName => map (fun '(v, r) => (CapM v, r)) (name_alts month_names 1 s)
  | DMonthAbbr => map (fun '(v, r) => (CapM v, r)) (name_alts month_abbrs 1 s)
  | DSpace => map (fun r => (CapNone, r)) (space_alts s)
  | DLit c =>
      match s with
      | String c' rest =>
          if Ascii.eqb (to_lower c') (to_lower c) then [(CapNone, rest)] else []
      | EmptyString => []
      end
  end.

(** What a match has captured; a field the format lacks keeps the
    default of [strptime], 1900-01-01. *)
Definition fields0 : Date := mkDate 1900 1 1.

Definition set_field (cap : capture) (f : Date) : Date :=
  match cap with
  | CapY v => mkDate v (month f) (day f)
  | CapM v => mkDate (year f) v (day f)
  | CapD v => mkDate (year f) (month f) v
  | CapNone => f
  end.

Fixpoint first_some {A B : Type} (k : A -> option B) (l : list A) : option B :=
  match l with
  | [] => None
  | x :: l' =>
      match k x with
      | Some y => Some y
      | None => first_some k l'
      end
  end.

(** The first match of the directives at the start of [s]: the captured
    fields and the text left after it. *)
Fixpoint match_from (ds : list directive) (f : Date) (s : string) : option (Date * string) :=
  match ds with
  | [] => Some (f, s)
  | d :: ds' =>
      first_some (fun '(cap, rest) => match_from ds' (set_field cap f) rest) (alts d s)
  end.

(** [pd.to_datetime(date_str, format=fmt)]; [None] when it raises. *)
Definition to_datetime_format (date_str fmt : string) : option Date :=
  match compile fmt with
  | None => None
  | Some ds =>
      match match_from ds fields0 date_str with
      | Some (f, EmptyString) => if valid_date f then Some f else None
      | _ => None
      end
  end.

Definition date_formats : list string :=
  [ "%Y-%m-%d"; "%m/%d/%Y"; "%d/%m/%Y"; "%m-%d-%Y"; "%d-%m-%Y";
    "%Y/%m/%d"; "%B %d, %Y"; "%b %d, %Y"; "%d %B %Y"; "%d %b %Y" ].

(** The loop over the formats: the first one that parses wins. *)
Fixpoint try_formats (fmts : list string) (date_str : string) : option Date :=
  match fmts with
  | [] => None
  | fmt :: fmts' =>
      match to_datetime_format date_str fmt with
      | Some d => Some d
      | None => try_formats fmts' date_str
      end
  end.

(** [None] stands for both [None] and [NaT]: [dropna] drops either. *)
Definition clean_and_parse_date `{Pandas} (date_val : Cell) : option Date :=
  if isna date_val then None
  else
    let date_str := strip (str date_val) in
    match try_formats date_formats date_str with
    | Some d => Some d
    | None => to_datetime_flexible date_str
    end.

(** *** [strftime], the formatting the round trip starts from *)

Definition digit_char (n : Z) : ascii := ascii_of_nat (48 + Z.to_nat n).

Definition fmt2 (n : Z) : string :=
  String (digit_char (n / 10 mod 10)) (String (digit_char (n mod 10)) EmptyString).

Definition fmt4 (n : Z) : string :=
  String (digit_char (n / 1000 mod 10))
    (String (digit_char (n / 100 mod 10))
       (String (digit_char (n / 10 mod 10))
          (String (digit_char (n mod 10)) EmptyString))).

Definition month_name (m : Z) : string :=
  title (nth (Z.to_nat (m - 1)) month_names "").

Definition month_abbr (m : Z) : string :=
  title (nth (Z.to_nat (m - 1)) month_abbrs "").

(** [d.strftime(fmt)]: numbers are zero-padded to the width of the
    directive. *)
Fixpoint strftime (fmt : string) (d : Date) : string :=
  match fmt with
  | EmptyString => EmptyString
  | String c rest =>
      if Ascii.eqb c "%" then
        match rest with
        | EmptyString => String c EmptyString
        | String k rest' =>
            (if Ascii.eqb k "Y" then fmt4 (year d)
             else if Ascii.eqb k "m" then fmt2 (month d)
             else if Ascii.eqb k "d" then fmt2 (day d)
             else if Ascii.eqb k "B" then month_name (month d)
             else if Ascii.eqb k "b" then month_abbr (month d)
             else String c (String k EmptyString)) ++ strftime rest' d
        end
      else String c (strftime rest d)
  end.

(** *** Shapes of texts and of alternatives, for the round trip *)

(** [rstrip] leaves [s] alone, and [s] is not empty. *)
Definition tight (s : string) : Prop := rstrip s = s /\ s <> EmptyString.

(** Every alternative leaves a text that starts with a digit. *)
Definition digit_led {A : Type} (l : list (A * string)) : Prop :=
  Forall (fun p => exists c r, snd p = String c r /\ is_digit c = true) l.

(** The integers [lo], [lo + 1], ..., [n] of them. *)
Fixpoint zrange (lo : Z) (n : nat) : list Z :=
  match n with
  | O => []
  | S k => lo :: zrange (lo + 1)%Z k
  end.

(** The two formats that put the day before the month. *)
Definition day_first (fmt : string) : bool :=
  String.eqb fmt "%d/%m/%Y" || String.eqb fmt "%d-%m-%Y".

(** A separator of the formats: neither a digit nor a letter. *)
Definition is_sep (c : ascii) : bool := negb (is_digit c) && negb (is_alpha c).

(** ** RecordExtractor: [extract_data_from_xlsx] *)

(** A row of the frame the extractor returns.  The columns [Year],
    [Month], [MonthName] and [YearMonth] are computed from [Date]. *)
Record Row : Type := mkRow {
  rDate : Date;
  rHours : Q;
  rDeveloper : string
}.

Definition rYear (r : Row) : Z := year (rDate r).
Definition rMonth (r : Row) : Z := month (rDate r).
Definition rMonthName (r : Row) : string := month_name (rMonth r).
Definition rYearMonth (r : Row) : Z * Z := (rYear r, rMonth r).

(** What [pd.read_excel] makes of the bytes of a file: it raises, or it
    returns a frame. *)
Inductive ExcelBytes : Type :=
| Undecodable (exn : string)
| Sheet (df : DataFrame).

Inductive FileOutcome : Type :=
| Extracted (data : list Row)
| Rejected (error : string).

(** [pd.to_numeric(..., errors='coerce')] on one cell; [None] is NaN. *)
Definition to_numeric `{Pandas} (v : Cell) : option Q :=
  match v with
  | CEmpty => None
  | CText s => to_numeric_text s
  | CNum q => Some q
  end.

(** [Hours > 0] *)
Definition positive (q : Q) : bool := negb (Qle_bool q 0).

(** The row indices [data_start_row:] of the frame. *)
Definition data_rows (df : DataFrame) (data_start_row : nat) : list nat :=
  seq data_start_row (len df - data_start_row).

(** One row of [data] after the two columns are cleaned: the row stays
    when [dropna] and the filter [Hours > 0] both keep it. *)
Definition clean_row `{Pandas} (df : DataFrame) (date_col hours_col r : nat)
  : option (Date * Q) :=
  match clean_and_parse_date (iloc df r date_col), to_numeric (iloc df r hours_col) with
  | Some d, Some h => if positive h then Some (d, h) else None
  | _, _ => None
  end.

Fixpoint filter_map {A B : Type} (f : A -> option B) (l : list A) : list B :=
  match l with
  | [] => []
  | x :: l' =>
      match f x with
      | Some y => y :: filter_map f l'
      | None => filter_map f l'
      end
  end.

Definition extract_data_from_xlsx `{Pandas} (file_bytes : ExcelBytes) (file_name : string)
  : FileOutcome :=
  match file_bytes with
  | Undecodable exn => Rejected ("Error processing " ++ file_name ++ ": " ++ exn)
  | Sheet df =>
      if df_empty df then Rejected ("Empty file: " ++ file_name)
      else
        match detect_headers df with
        | (Some header_row, Some date_col, Some hours_col) =>
            let data_start_row := header_row + 1 in
            if len df <=? data_start_row
            then Rejected ("No data rows found after header in: " ++ file_name)
            else
              let data :=
                filter_map (clean_row df date_col hours_col) (data_rows df data_start_row) in
              match data with
              | [] => Rejected ("No valid date/hours data found in: " ++ file_name)
              | _ =>
                  let dev_name := extract_developer_name file_name in
                  Extracted (map (fun '(d, h) => mkRow d h dev_name) data)
              end
        | _ => Rejected ("Could not detect date/hours columns in: " ++ file_name)
        end
  end.

(** ** BatchProcessor: [process_zip_file] *)

(** An entry of the archive: its name and what [zip_file.open(name).read()]
    gives, an exception or the bytes. *)
Inductive EntryData : Type :=
| Unreadable (exn : string)
| Bytes (file_bytes : ExcelBytes).

Definition Archive : Type := list (string * EntryData).

(** The upload: not a ZIP file at all, or an archive. *)
Inductive Upload : Type :=
| BadZip (exn : string)
| Zip (entries : Archive).

Definition namelist (z : Archive) : list string := map fst z.

(** [zip_file.open(name)]: among entries of one name the last one is
    opened. *)
Fixpoint zip_open (z : Archive) (name : string) : option EntryData :=
  match z with
  | [] => None
  | (n, e) :: z' =>
      match zip_open z' name with
      | Some e' => Some e'
      | None => if String.eqb n name then Some e else None
      end
  end.

Record BatchReport : Type := mkReport {
  all_data : list Row;
  error_messages : list string;
  processed_files : list string;
  skipped_files : list string
}.

(** The three lists the loop appends to. *)
Record LoopState : Type := mkLoop {
  l_data : list (list Row);
  l_errors : list string;
  l_processed : list string
}.

(** The body of [for i, file_name in enumerate(xlsx_files)]. *)
Definition process_entry `{Pandas} (z : Archive) (st : LoopState) (file_name : string)
  : LoopState :=
  match zip_open z file_name with
  | Some (Bytes file_bytes) =>
      match extract_data_from_xlsx file_bytes file_name with
      | Extracted data =>
          mkLoop (l_data st ++ [data]) (l_errors st) (l_processed st ++ [file_name])
      | Rejected error =>
          mkLoop (l_data st) (l_errors st ++ [error]) (l_processed st)
      end
  | Some (Unreadable exn) =>
      mkLoop (l_data st) (l_errors st ++ ["Could not read " ++ file_name ++ ": " ++ exn])
        (l_processed st)
  | None =>
      mkLoop (l_data st)
        (l_errors st ++ ["Could not read " ++ file_name ++ ": no such entry"])
        (l_processed st)
  end.

Definition is_excel_name (f : string) : bool :=
  endswith ".xlsx" f || endswith ".xls" f.

Definition process_zip_file `{Pandas} (uploaded_file : Upload) : BatchReport :=
  match uploaded_file with
  | BadZip exn => mkReport [] ["Error reading ZIP file: " ++ exn] [] []
  | Zip z =>
      let all_files := namelist z in
      let xlsx_files := filter is_valid_excel_file all_files in
      let skipped :=
        filter (fun f => is_excel_name f && negb (is_valid_excel_file f)) all_files in
      match xlsx_files with
      | [] => mkReport [] ["No valid XLSX files found in ZIP"] [] skipped
      | _ =>
          let st := fold_left (process_entry z) xlsx_files (mkLoop [] [] []) in
          mkReport (List.concat (l_data st)) (l_errors st) (l_processed st) skipped
      end
  end.

(** ** Aggregator: [create_monthly_summary] *)

Record MonthlyBucket : Type := mkBucket {
  bDeveloper : string;
  bYear : Z;
  bMonth : Z;
  bMonthName : string;
  bYearMonth : Z * Z;
  bHours : Q;
  bWorkingDays : nat
}.

(** The group key.  [MonthName] and [YearMonth], the other two columns of
    the [groupby], are functions of [Year] and [Month]. *)
Definition GroupKey : Type := string * Z * Z.

Definition key_of (r : Row) : GroupKey := (rDeveloper r, rYear r, rMonth r).

Definition key_eqb (k1 k2 : GroupKey) : bool :=
  let '(d1, y1, m1) := k1 in
  let '(d2, y2, m2) := k2 in
  (String.eqb d1 d2 && (y1 =? y2) && (m1 =? m2))%Z.

(** The order of the group keys: by [Developer], [Year], [Month]. *)
Definition groupby_le (k1 k2 : GroupKey) : bool :=
  let '(d1, y1, m1) := k1 in
  let '(d2, y2, m2) := k2 in
  match String.compare d1 d2 with
  | Lt => true
  | Gt => false
  | Eq => ((y1 <? y2) || ((y1 =? y2) && (m1 <=? m2)))%Z
  end.

(** The order of [sort_values(['Year', 'Month', 'Developer'])]. *)
Definition summary_le (b1 b2 : MonthlyBucket) : bool :=
  ((bYear b1 <? bYear b2) ||
   ((bYear b1 =? bYear b2) &&
    ((bMonth b1 <? bMonth b2) ||
     ((bMonth b1 =? bMonth b2) && String.leb (bDeveloper b1) (bDeveloper b2)))))%Z.

Section Sorting.
Context {A : Type} (le : A -> A -> bool).

Fixpoint insert (x : A) (l : list A) : list A :=
  match l with
  | [] => [x]
  | y :: l' => if le x y then x :: l else y :: insert x l'
  end.

Fixpoint sort (l : list A) : list A :=
  match l with
  | [] => []
  | x :: l' => insert x (sort l')
  end.
End Sorting.

(** The distinct keys, each at its first occurrence. *)
Fixpoint unique (ks : list GroupKey) : list GroupKey :=
  match ks with
  | [] => []
  | k :: ks' => k :: filter (fun k' => negb (key_eqb k k')) (unique ks')
  end.

(** [df.groupby([...])]: the groups in the order of their keys, each with
    its rows in the order of the frame. *)
Definition groupby (df : list Row) : list (GroupKey * list Row) :=
  map (fun k => (k, filter (fun r => key_eqb k (key_of r)) df))
      (sort groupby_le (unique (map key_of df))).

(** ['sum'] of the [Hours] of a group in exact arithmetic: the total the
    float64 column has when no addition rounds. *)
Definition sum_hours (g : list Row) : Q :=
  fold_left Qplus (map rHours g) 0%Q.

(** [.agg({'Hours': 'sum', 'Date': 'count'})] on one group. *)
Definition agg (g : GroupKey * list Row) : MonthlyBucket :=
  let '((d, y, m), rs) := g in
  mkBucket d y m (month_name m) (y, m) (sum_hours rs) (List.length rs).

(** The columns [YearMonthStr] and [MonthYear], labels computed from the
    columns above, are left out. *)
Definition create_monthly_summary (df : list Row) : list MonthlyBucket :=
  sort summary_le (map agg (groupby df)).

(** *** The summary with the sum of the library

    [Hours] is a float64 column and ['sum'] adds it up with rounding;
    [hsum] stands for that sum, which gets the hours of a group in the
    order of the frame.  A float64 is the rational it denotes.
    [create_monthly_summary] is the summary with [exact_sum]. *)

Definition exact_sum (l : list Q) : Q := fold_left Qplus l 0%Q.

Definition agg_with (hsum : list Q -> Q) (g : GroupKey * list Row) : MonthlyBucket :=
  let '((d, y, m), rs) := g in
  mkBucket d y m (month_name m) (y, m) (hsum (map rHours rs)) (List.length rs).

Definition create_monthly_summary_with (hsum : list Q -> Q) (df : list Row)
  : list MonthlyBucket :=
  sort summary_le (map (agg_with hsum) (groupby df)).

(** A bucket with its hours blanked out. *)
Definition without_hours (b : MonthlyBucket) : MonthlyBucket :=
  mkBucket (bDeveloper b) (bYear b) (bMonth b) (bMonthName b) (bYearMonth b)
           0%Q (bWorkingDays b).

(** *** The outcome of one entry, for stating what the batch does *)

(** What the loop body makes of the entry [file_name]: the outcome of the
    extraction, or the rejection it records when the entry cannot be read. *)
Definition entry_outcome `{Pandas} (z : Archive) (file_name : string) : FileOutcome :=
  match zip_open z file_name with
  | Some (Bytes file_bytes) => extract_data_from_xlsx file_bytes file_name
  | Some (Unreadable exn) => Rejected ("Could not read " ++ file_name ++ ": " ++ exn)
  | None => Rejected ("Could not read " ++ file_name ++ ": no such entry")
  end.

Definition is_extracted (o : FileOutcome) : bool :=
  match o with
  | Extracted _ => true
  | Rejected _ => false
  end.

Definition data_of (o : FileOutcome) : list Row :=
  match o with
  | Extracted data => data
  | Rejected _ => []
  end.

Definition errors_of (o : FileOutcome) : list string :=
  match o with
  | Extracted _ => []
  | Rejected error => [error]
  end.

(** Row [r] of the frame is a data row that is kept, with date [d] and
    hours [h]. *)
Definition kept_row `{Pandas} (df : DataFrame) (header_row date_col hours_col : nat)
  (r : nat) (d : Date) (h : Q) : Prop :=
  header_row < r /\ r < len df /\
  clean_and_parse_date (iloc df r date_col) = Some d /\
  to_numeric (iloc df r hours_col) = Some h /\
  (0 < h)%Q.

(** Row [r] is dropped: its date does not parse, its hours are not a
    number, or its hours are zero or less. *)
Definition dropped_row `{Pandas} (df : DataFrame) (date_col hours_col : nat) (r : nat) : Prop :=
  clean_and_parse_date (iloc df r date_col) = None \/
  to_numeric (iloc df r hours_col) = None \/
  exists h, to_numeric (iloc df r hours_col) = Some h /\ (h <= 0)%Q.

(** *** What the summary is to hold *)

(** The rows of [df] of key [k], in the order of the frame. *)
Definition rows_of (df : list Row) (k : GroupKey) : list Row :=
  filter (fun r => key_eqb k (key_of r)) df.

(** The bucket of key [k]: the hours of its rows added up and the number
    of its rows. *)
Definition bucket_of (df : list Row) (k : GroupKey) : MonthlyBucket :=
  agg (k, rows_of df k).

Definition bucket_with (hsum : list Q -> Q) (df : list Row) (k : GroupKey)
  : MonthlyBucket :=
  agg_with hsum (k, rows_of df k).

(** [b1] comes strictly before [b2] by (year, month, developer). *)
Definition summary_before (b1 b2 : MonthlyBucket) : Prop :=
  (bYear b1 < bYear b2)%Z \/
  (bYear b1 = bYear b2 /\
   ((bMonth b1 < bMonth b2)%Z \/
    (bMonth b1 = bMonth b2 /\
     String.compare (bDeveloper b1) (bDeveloper b2) = Lt))).

(** ** An instance of the library routines, for the worked examples

    A float prints with one decimal, a text is numeric when it is a
    decimal integer, and there is no free-form date parsing. *)

Definition plain_str_float (q : Q) : string :=
  let n := (Qnum q * 10 / Zpos (Qden q))%Z in
  NilZero.string_of_int (Z.to_int (n / 10)) ++ "." ++
  NilZero.string_of_int (Z.to_int (Z.abs n mod 10)).

Definition plain_to_numeric_text (s : string) : option Q :=
  match NilZero.int_of_string (strip s) with
  | Some i => Some (inject_Z (Z.of_int i))
  | None => None
  end.

Definition plain_pandas : Pandas :=
  {| str_float := plain_str_float;
     to_numeric_text := plain_to_numeric_text;
     to_datetime_flexible := fun _ => None |}.

(** Scenario A: one sheet with the header on row 0 and two data rows. *)
Definition john_sheet : DataFrame :=
  mkDataFrame 2
    [ [CText "Date"; CText "Hours"];
      [CText "2024-01-05"; CNum 8];
      [CText "2024-01-06"; CNum 7.5] ].

Definition john_archive : Archive :=
  [("john_timesheet.xlsx", Bytes (Sheet john_sheet))].

(** ** Sums of float64, for the worked examples

    The float64 nearest to a rational, ties to the even mantissa, for
    values in the normal range (hours are far from its ends). *)

(** The integer nearest to [n / d], ties to the even one; [0 < d]. *)
Definition round_half_even (n d : Z) : Z :=
  let q := (n / d)%Z in
  let r := (n mod d)%Z in
  if (2 * r <? d)%Z then q
  else if (d <? 2 * r)%Z then (q + 1)%Z
  else if Z.even q then q else (q + 1)%Z.

(** [float(q)]: with [2 ^ e <= |q| < 2 ^ (e + 1)], the multiple of
    [2 ^ (e - 52)] nearest to [q]. *)
Definition f64 (q : Q) : Q :=
  let a := Z.abs (Qnum q) in
  let d := Zpos (Qden q) in
  if (a =? 0)%Z then 0%Q
  else
    let e0 := (Z.log2 a - Z.log2 d)%Z in
    let low :=
      if (0 <=? e0)%Z then (a <? d * 2 ^ e0)%Z else (a * 2 ^ (- e0) <? d)%Z in
    let e := if low then (e0 - 1)%Z else e0 in
    let k := (52 - e)%Z in
    let v :=
      if (0 <=? k)%Z
      then Qred (Qmake (round_half_even (a * 2 ^ k) d) (Z.to_pos (2 ^ k)))
      else inject_Z (round_half_even a (d * 2 ^ (- k)) * 2 ^ (- k)) in
    if (Qnum q <? 0)%Z then Qopp v else v.

Definition f64_add (a b : Q) : Q := f64 (a + b)%Q.
Definition f64_sub (a b : Q) : Q := f64 (a - b)%Q.

(** The column added up from the first row to the last. *)
Definition f64_sum (l : list Q) : Q := fold_left f64_add l 0%Q.

(** The same with the compensation of Kahan: [c] holds what the last
    addition lost. *)
Fixpoint kahan (l : list Q) (s c : Q) : Q :=
  match l with
  | [] => s
  | v :: l' =>
      let y := f64_sub v c in
      let t := f64_add s y in
      kahan l' t (f64_sub (f64_sub t s) y)
  end.

Definition f64_kahan_sum (l : list Q) : Q := kahan l 0%Q 0%Q.

(** ** The views of [main] *)

(** [name in selected_developers] *)
Definition isin (selected : list string) (name : string) : bool :=
  existsb (String.eqb name) selected.

(** [df[df['Developer'].isin(selected_developers)]] *)
Definition select_rows (selected : list string) (df : list Row) : list Row :=
  filter (fun r => isin selected (rDeveloper r)) df.

(** [monthly_summary[monthly_summary['Developer'].isin(selected_developers)]] *)
Definition select_summary (selected : list string) (summary : list MonthlyBucket)
  : list MonthlyBucket :=
  filter (fun b => isin selected (bDeveloper b)) summary.

(** The working days of a summary, added up. *)
Definition summary_days (summary : list MonthlyBucket) : nat :=
  fold_left Nat.add (map bWorkingDays summary) 0.

(** Row [r] has one of the keys [ks]. *)
Definition key_in (ks : list GroupKey) (r : Row) : bool :=
  existsb (fun k => key_eqb k (key_of r)) ks.

(** *** Shapes of names *)

(** [s] with its first letter in upper case and the others in lower case. *)
Definition capitalize (s : string) : string :=
  match s with
  | EmptyString => EmptyString
  | String c s' => String (to_upper c) (lower s')
  end.

(** The sheet cut down to its first ten rows. *)
Definition first_rows (df : DataFrame) : DataFrame :=
  mkDataFrame (columns df) (firstn 10 (rows df)).

(** [s] is made of blanks only. *)
Fixpoint all_space (s : string) : bool :=
  match s with
  | EmptyString => true
  | String c s' => is_space c && all_space s'
  end.

(** * Properties *)

(** ** String methods *)

Section StringFacts.

Lemma startswith_app (p s : string) : startswith p (p ++ s) = true.
Proof.
  induction p as [|a p IH]; simpl; [reflexivity|].
  now rewrite Ascii.eqb_refl.
Qed.

Lemma startswith_inv (p s : string) :
  startswith p s = true -> exists post, s = p ++ post.
Proof.
  revert s. induction p as [|a p IH]; intros s Hp.
  - now exists s.
  - destruct s as [|b s]; simpl in Hp; [discriminate|].
    apply andb_true_iff in Hp as [Hab Hp]. apply Ascii.eqb_eq in Hab as ->.
    destruct (IH _ Hp) as [post ->]. now exists post.
Qed.

Lemma contains_app (sub pre post : string) :
  contains sub (pre ++ sub ++ post) = true.
Proof.
  induction pre as [|c pre IH].
  - simpl append.
    assert (Hc : forall t, startswith sub t = true -> contains sub t = true)
      by (intros [|a t] Ht; cbn [contains]; now rewrite Ht).
    apply Hc, startswith_app.
  - cbn [append contains]. rewrite IH. apply orb_true_r.
Qed.

Lemma contains_inv (sub s : string) :
  contains sub s = true -> exists pre post, s = pre ++ sub ++ post.
Proof.
  induction s as [|c s IH]; cbn [contains]; intros Hc.
  - rewrite orb_false_r in Hc.
    destruct (startswith_inv _ _ Hc) as [post ->]. now exists "", post.
  - apply orb_true_iff in Hc as [Hc|Hc].
    + destruct (startswith_inv _ _ Hc) as [post ->]. now exists "", post.
    + destruct (IH Hc) as (pre & post & ->). now exists (String c pre), post.
Qed.

Lemma split_first_app (sep : ascii) (tok rest : string) :
  has_char sep tok = false ->
  split_first sep (tok ++ String sep rest) = tok.
Proof.
  induction tok as [|c tok IH]; simpl; intros Hn.
  - now rewrite Ascii.eqb_refl.
  - apply orb_false_iff in Hn as [-> Hn]. now rewrite IH.
Qed.

Lemma split_first_none (sep : ascii) (s : string) :
  has_char sep s = false -> split_first sep s = s.
Proof.
  induction s as [|c s IH]; simpl; intros Hn; [reflexivity|].
  apply orb_false_iff in Hn as [-> Hn]. now rewrite IH.
Qed.

Lemma split_first_before (sep : ascii) (s tok : string) :
  before_first sep s tok -> split_first sep s = tok.
Proof.
  intros [Hn [->|[rest ->]]].
  - now apply split_first_none.
  - now apply split_first_app.
Qed.

Lemma has_char_app (sep : ascii) (s t : string) :
  has_char sep (s ++ t) = has_char sep s || has_char sep t.
Proof.
  induction s as [|c s IH]; simpl; [reflexivity|].
  now rewrite IH, orb_assoc.
Qed.


End StringFacts.

(** ** EntryFilter *)

Example valid_ex1 : is_valid_excel_file "a/john_timesheet.XLSX" = true.
Proof. reflexivity. Qed.
Example valid_ex2 : is_valid_excel_file "__MACOSX/._john.xlsx" = false.
Proof. reflexivity. Qed.

(** The three other rejections of the filter: sidecar names, names that
    lack the extension and directory names. *)
Lemma is_valid_excel_file_rejects (filename : string) :
  startswith "__MACOSX/" filename = true \/
  endswith ".xlsx" (lower filename) || endswith ".xls" (lower filename) = false \/
  endswith "/" filename = true ->
  is_valid_excel_file filename = false.
Proof.
  unfold is_valid_excel_file. intros [H|[H|H]]; rewrite H; simpl.
  - reflexivity.
  - now repeat match goal with |- context [if ?b then _ else _] => destruct b end.
  - now repeat match goal with |- context [if ?b then _ else _] => destruct b end.
Qed.

(** A name that starts with a dot is rejected. *)
Lemma is_valid_excel_file_leading_dot (rest : string) :
  is_valid_excel_file (String "." rest) = false.
Proof.
  unfold is_valid_excel_file.
  now destruct (startswith "__MACOSX/" _ || contains "._" _).
Qed.

(** C6: an entry whose base name starts with a dot inside a directory
    passes the filter: only a dot at the very start of the whole name, the
    text "._" and the text "/.DS_Store" are looked for, so the hidden file
    [reports/.hidden.xlsx] is eligible although the rule says it is skipped. *)
Theorem hidden_file_in_directory_is_eligible :
  startswith "." (split_last "/" "reports/.hidden.xlsx") = true /\
  is_valid_excel_file "reports/.hidden.xlsx" = true /\
  is_valid_excel_file "a/.config/sheet.xls" = true.
Proof. repeat split; reflexivity. Qed.

(** C10: every entry name that has the text "._" somewhere, not only a
    sidecar whose base name starts with it, is rejected by the filter; so
    is the ordinary spreadsheet [report._v2.xlsx]. *)
Theorem dot_underscore_anywhere_rejected :
  (forall pre post : string, is_valid_excel_file (pre ++ "._" ++ post) = false) /\
  is_valid_excel_file "report._v2.xlsx" = false.
Proof.
  split; [|reflexivity].
  intros pre post. unfold is_valid_excel_file.
  now rewrite contains_app, orb_true_r.
Qed.

(** ** NameInferer *)

Example name_ex1 : extract_developer_name "prashanth*_reddy_timesheet.xlsx" = "Prashanth".
Proof. reflexivity. Qed.
Example name_ex2 : extract_developer_name "dir/john_doe_timesheet.xlsx" = "John".
Proof. reflexivity. Qed.
Example name_ex3 : extract_developer_name "mary*smith*timesheet.xlsx" = "Mary".
Proof. reflexivity. Qed.
Example name_ex4 : extract_developer_name "2024_report.xlsx" = "Unknown".
Proof. reflexivity. Qed.




(** ** HeaderLocator *)

Section HeaderLocator.
Context `{Pandas}.

Lemma any_keyword_mentions (kws : list string) (text : string) :
  any_keyword kws text = true <-> mentions kws text.
Proof.
  unfold any_keyword, mentions. rewrite existsb_exists. split.
  - intros (kw & Hin & Hc).
    destruct (contains_inv _ _ Hc) as (pre & post & E).
    now exists kw, pre, post.
  - intros (kw & pre & post & Hin & ->).
    exists kw. split; [assumption | apply contains_app].
Qed.

Lemma last_index_Some (f : nat -> bool) (n c : nat) :
  last_index f n = Some c <->
  c < n /\ f c = true /\ forall c', c < c' -> c' < n -> f c' = false.
Proof.
  induction n as [|n IH]; simpl.
  - split; [discriminate | lia].
  - destruct (f n) eqn:Fn.
    + split.
      * intros [= <-]. repeat split; [lia | assumption | lia].
      * intros (Hlt & Hc & Hmax).
        destruct (Nat.eq_dec c n) as [->|Hne]; [reflexivity|].
        rewrite (Hmax n) in Fn by lia. discriminate.
    + rewrite IH. split.
      * intros (Hlt & Hc & Hmax). repeat split; [lia | assumption |].
        intros c' H1 H2. destruct (Nat.eq_dec c' n) as [->|]; [assumption|].
        apply Hmax; lia.
      * intros (Hlt & Hc & Hmax).
        assert (c <> n) by (intros ->; congruence).
        repeat split; [lia | assumption |]. intros; apply Hmax; lia.
Qed.

Lemma last_index_None (f : nat -> bool) (n : nat) :
  last_index f n = None <-> forall c, c < n -> f c = false.
Proof.
  induction n as [|n IH]; simpl.
  - split; [lia | reflexivity].
  - destruct (f n) eqn:Fn.
    + split; [discriminate|]. intros Hall. rewrite Hall in Fn by lia. discriminate.
    + rewrite IH. split.
      * intros Hall c Hc. destruct (Nat.eq_dec c n) as [->|]; [assumption|].
        apply Hall; lia.
      * intros Hall c Hc. apply Hall; lia.
Qed.

Variable df : DataFrame.

(** The inner loop, column by column: each local holds the last match
    seen so far. *)
Lemma scan_row_prefix (r n : nat) :
  r < len df -> n <= columns df ->
  fold_left (scan_cell df r) (seq 0 n) scan_init =
  mkRowScan (is_some (last_index (date_at df r) n)) (is_some (last_index (hours_at df r) n))
            (last_index (date_at df r) n) (last_index (hours_at df r) n).
Proof.
  intros Hr. induction n as [|n IH]; intros Hn; [reflexivity|].
  rewrite seq_S, fold_left_app, IH by lia. cbn [fold_left Nat.add].
  unfold scan_cell.
  replace (len df <=? r) with false by (symmetry; apply Nat.leb_gt; lia).
  replace (columns df <=? n) with false by (symmetry; apply Nat.leb_gt; lia).
  cbn [orb last_index]. fold (date_at df r n) (hours_at df r n).
  now destruct (date_at df r n), (hours_at df r n).
Qed.

Lemma scan_row_eq (r : nat) :
  r < len df ->
  scan_row df r =
  mkRowScan (is_some (last_index (date_at df r) (columns df)))
            (is_some (last_index (hours_at df r) (columns df)))
            (last_index (date_at df r) (columns df))
            (last_index (hours_at df r) (columns df)).
Proof. intros Hr. now apply scan_row_prefix. Qed.

(** The outer loop over [a, a+1, ..., a+k-1]. *)
Lemma find_header_seq (k a : nat) :
  (forall r dc hc,
      find_header df (seq a k) = (Some r, dc, hc) <->
      a <= r < a + k /\ (forall r', a <= r' -> r' < r -> found df r' = false) /\
      found df r = true /\
      dc = temp_date_col (scan_row df r) /\ hc = temp_hours_col (scan_row df r)) /\
  (forall dc hc,
      find_header df (seq a k) = (None, dc, hc) <->
      dc = None /\ hc = None /\ forall r', a <= r' -> r' < a + k -> found df r' = false).
Proof.
  revert a. induction k as [|k IH]; intros a; simpl.
  - split.
    + intros r dc hc. split; [discriminate | lia].
    + intros dc hc. split.
      * intros [= <- <-]. repeat split. lia.
      * now intros (-> & -> & _).
  - fold (found df a). destruct (found df a) eqn:Fa.
    + split.
      * intros r dc hc. split.
        -- intros [= <- <- <-]. repeat split; (lia || assumption).
        -- intros (Hr & Hbefore & Hf & -> & ->).
           destruct (Nat.eq_dec r a) as [->|Hne]; [reflexivity|].
           rewrite (Hbefore a) in Fa by lia. discriminate.
      * intros dc hc. split; [discriminate|].
        intros (_ & _ & Hall). rewrite Hall in Fa by lia. discriminate.
    + destruct (IH (S a)) as [IHs IHn]. split.
      * intros r dc hc. rewrite IHs. split.
        -- intros (Hr & Hbefore & Hrest). repeat split; try lia; try apply Hrest.
           intros r' H1 H2. destruct (Nat.eq_dec r' a) as [->|]; [assumption|].
           apply Hbefore; lia.
        -- intros (Hr & Hbefore & Hf & Hrest).
           assert (r <> a) by (intros ->; congruence).
           repeat split; try lia; try assumption; try apply Hrest.
           intros; apply Hbefore; lia.
      * intros dc hc. rewrite IHn. split.
        -- intros (-> & -> & Hall). repeat split.
           intros r' H1 H2. destruct (Nat.eq_dec r' a) as [->|]; [assumption|].
           apply Hall; lia.
        -- intros (-> & -> & Hall). repeat split. intros; apply Hall; lia.
Qed.

Lemma date_at_cell (r c : nat) : date_at df r c = true <-> date_cell df r c.
Proof. apply any_keyword_mentions. Qed.

Lemma hours_at_cell (r c : nat) : hours_at df r c = true <-> hours_cell df r c.
Proof. apply any_keyword_mentions. Qed.

Lemma last_index_last_col (f : nat -> bool) (P : nat -> Prop) (n c : nat) :
  (forall i, f i = true <-> P i) ->
  last_index f n = Some c <-> last_col P n c.
Proof.
  intros HfP. rewrite last_index_Some. unfold last_col.
  split; intros (Hlt & Hc & Hmax); repeat split; try assumption.
  - now apply HfP.
  - intros c' H1 H2 HP. apply HfP in HP. rewrite Hmax in HP by assumption.
    discriminate.
  - now apply HfP.
  - intros c' H1 H2. destruct (f c') eqn:E; [|reflexivity].
    exfalso. apply (Hmax c' H1 H2). now apply HfP.
Qed.

Lemma is_some_last_index (f : nat -> bool) (P : nat -> Prop) (n : nat) :
  (forall i, f i = true <-> P i) ->
  is_some (last_index f n) = true <-> exists c, c < n /\ P c.
Proof.
  intros HfP. destruct (last_index f n) as [c|] eqn:E; simpl.
  - apply last_index_Some in E as (Hlt & Hc & _).
    split; [|reflexivity]. intros _. exists c. split; [assumption | now apply HfP].
  - split; [discriminate|]. intros (c & Hlt & HP).
    apply HfP in HP. rewrite last_index_None in E.
    rewrite E in HP by assumption. discriminate.
Qed.

Lemma found_qualifies (r : nat) :
  r < len df -> found df r = true <-> qualifies df r.
Proof.
  intros Hr. unfold found, qualifies. rewrite (scan_row_eq r Hr). simpl.
  rewrite andb_true_iff.
  rewrite (is_some_last_index _ _ _ (date_at_cell r)).
  now rewrite (is_some_last_index _ _ _ (hours_at_cell r)).
Qed.

Lemma found_not_qualifies (r : nat) :
  r < len df -> found df r = false <-> ~ qualifies df r.
Proof.
  intros Hr. rewrite <- (found_qualifies r Hr).
  destruct (found df r); split; congruence.
Qed.

Lemma detect_headers_found (r dc hc : nat) :
  detect_headers df = (Some r, Some dc, Some hc) <->
  r < (window df) /\
  (forall r', r' < r -> ~ qualifies df r') /\
  last_col (date_cell df r) (columns df) dc /\
  last_col (hours_cell df r) (columns df) hc.
Proof.
  unfold detect_headers. change (Nat.min 10 (len df)) with (window df).
  destruct (find_header_seq (window df) 0) as [Hs _]. rewrite Hs. clear Hs.
  assert (Hw : (window df) <= len df) by (unfold window; lia).
  split.
  - intros (Hr & Hbefore & Hf & Hdc & Hhc).
    assert (Hrl : r < len df) by lia.
    rewrite (scan_row_eq r Hrl) in Hdc, Hhc. simpl in Hdc, Hhc.
    split; [lia|]. split; [|split].
    + intros r' Hr'. apply found_not_qualifies; [lia|]. apply Hbefore; lia.
    + apply (last_index_last_col _ _ _ _ (date_at_cell r)); now symmetry.
    + apply (last_index_last_col _ _ _ _ (hours_at_cell r)); now symmetry.
  - intros (Hr & Hbefore & Hd & Hh).
    assert (Hrl : r < len df) by lia.
    split; [lia|]. split; [|split; [|split]].
    + intros r' _ Hr'. apply found_not_qualifies; [lia|]. now apply Hbefore.
    + apply found_qualifies; [assumption|]. split.
      * exists dc. destruct Hd as (? & ? & _). now split.
      * exists hc. destruct Hh as (? & ? & _). now split.
    + rewrite (scan_row_eq r Hrl). simpl. symmetry.
      now apply (last_index_last_col _ _ _ _ (date_at_cell r)).
    + rewrite (scan_row_eq r Hrl). simpl. symmetry.
      now apply (last_index_last_col _ _ _ _ (hours_at_cell r)).
Qed.

Lemma detect_headers_not_found :
  detect_headers df = (None, None, None) <->
  forall r, r < (window df) -> ~ qualifies df r.
Proof.
  unfold detect_headers. change (Nat.min 10 (len df)) with (window df).
  destruct (find_header_seq (window df) 0) as [_ Hn]. rewrite Hn. clear Hn.
  assert (Hw : (window df) <= len df) by (unfold window; lia).
  split.
  - intros (_ & _ & Hall) r Hr. apply found_not_qualifies; [lia|]. apply Hall; lia.
  - intros Hall. repeat split. intros r' _ Hr'.
    apply found_not_qualifies; [lia|]. now apply Hall.
Qed.

(** The result is all-[None] or names a row and two columns. *)
Lemma detect_headers_shape :
  detect_headers df = (None, None, None) \/
  exists r dc hc, detect_headers df = (Some r, Some dc, Some hc).
Proof.
  destruct (detect_headers df) as [[[r|] dc] hc] eqn:E.
  - right. unfold detect_headers in E.
    destruct (find_header_seq (Nat.min 10 (len df)) 0) as [Hs _].
    apply Hs in E as (Hr & _ & Hf & -> & ->).
    assert (Hrl : r < len df) by lia.
    unfold found in Hf. rewrite (scan_row_eq r Hrl) in *. simpl in *.
    apply andb_true_iff in Hf as [Hd Hh].
    destruct (last_index (date_at df r) (columns df)) as [c1|]; [|discriminate].
    destruct (last_index (hours_at df r) (columns df)) as [c2|]; [|discriminate].
    now exists r, c1, c2.
  - left. unfold detect_headers in E.
    destruct (find_header_seq (Nat.min 10 (len df)) 0) as [_ Hn].
    now apply Hn in E as (-> & -> & _).
Qed.

End HeaderLocator.

(** C1: [detect_headers] looks at the rows [0 .. min(10, len df) - 1]
    only.  It returns row [r] with columns [dc] and [hc] exactly when [r]
    is in that window, no row before [r] has both a date header and an
    hours header, and [dc] and [hc] are the last columns of row [r] whose
    text has a date keyword and an hours keyword; it returns
    [(None, None, None)] exactly when no row of the window has both; and
    it returns nothing else. *)
Theorem detect_headers_spec `{Pandas} (df : DataFrame) :
  (forall r dc hc,
      detect_headers df = (Some r, Some dc, Some hc) <->
      r < Nat.min 10 (len df) /\
      (forall r', r' < r -> ~ qualifies df r') /\
      last_col (date_cell df r) (columns df) dc /\
      last_col (hours_cell df r) (columns df) hc) /\
  (detect_headers df = (None, None, None) <->
   forall r, r < Nat.min 10 (len df) -> ~ qualifies df r) /\
  (detect_headers df = (None, None, None) \/
   exists r dc hc, detect_headers df = (Some r, Some dc, Some hc)).
Proof.
  split; [|split].
  - intros r dc hc. apply detect_headers_found.
  - apply detect_headers_not_found.
  - apply detect_headers_shape.
Qed.

(** C5, as stated, fails: one cell can hold a date keyword and an hours
    keyword, and then the two columns are the same.  On the one-cell grid
    [Date/Time] the location is row 0, date column 0, hours column 0. *)
Lemma header_columns_can_coincide :
  @detect_headers plain_pandas (mkDataFrame 1 [[CText "Date/Time"]])
  = (Some 0, Some 0, Some 0).
Proof. reflexivity. Qed.

(** C5, amended: a location that is found has its row below 10 and inside
    the grid and its columns inside the grid; the two columns are the
    same only when that one cell has a keyword of each kind, so they
    differ whenever no cell of the header row has both. *)
Theorem detect_headers_location `{Pandas} (df : DataFrame) (r dc hc : nat) :
  detect_headers df = (Some r, Some dc, Some hc) ->
  r < 10 /\ r < len df /\ dc < columns df /\ hc < columns df /\
  (dc = hc -> date_cell df r dc /\ hours_cell df r dc) /\
  ((forall c, c < columns df -> ~ (date_cell df r c /\ hours_cell df r c)) -> dc <> hc).
Proof.
  intros E. apply detect_headers_found in E as (Hr & _ & Hd & Hh).
  destruct Hd as (Hdc & Hd & _), Hh as (Hhc & Hh & _).
  unfold window in Hr.
  repeat split; try lia; try assumption.
  - now subst hc.
  - intros Hnone ->. now apply (Hnone hc Hhc).
Qed.

Lemma detect_headers_location_witness :
  0 < 10 /\ 0 < len john_sheet /\ 0 < columns john_sheet /\ 1 < columns john_sheet /\
  (0 = 1 -> @date_cell plain_pandas john_sheet 0 0 /\ @hours_cell plain_pandas john_sheet 0 0) /\
  ((forall c, c < columns john_sheet ->
      ~ (@date_cell plain_pandas john_sheet 0 c /\ @hours_cell plain_pandas john_sheet 0 c)) ->
   0 <> 1).
Proof.
  exact (@detect_headers_location plain_pandas john_sheet 0 0 1 eq_refl).
Defined.

(** ** DateNormalizer *)

Example parse_ex1 : try_formats date_formats "2024-01-05" = Some (mkDate 2024 1 5).
Proof. reflexivity. Qed.
Example parse_ex2 : try_formats date_formats "May  5, 2024" = Some (mkDate 2024 5 5).
Proof. reflexivity. Qed.
Example parse_ex3 : try_formats date_formats "2023-02-29" = None.
Proof. reflexivity. Qed.
Example parse_ex4 : try_formats date_formats "2024-01-05 00:00:00" = None.
Proof. reflexivity. Qed.

(** *** Digits *)

Lemma zrange_In (lo v : Z) (n : nat) :
  (lo <= v < lo + Z.of_nat n)%Z -> In v (zrange lo n).
Proof.
  revert lo. induction n as [|n IH]; intros lo Hv; [lia|].
  simpl. destruct (Z.eq_dec lo v) as [->|Hne]; [now left|].
  right. apply IH. lia.
Qed.

Ltac enum_Z v lo n :=
  let Hin := fresh "Hin" in
  assert (Hin : In v (zrange lo n)) by (apply zrange_In; simpl; lia);
  cbv [zrange Z.add Pos.add Pos.succ] in Hin;
  repeat (destruct Hin as [<-|Hin]); [..|contradiction].

Lemma digit_char_facts (n : Z) :
  (0 <= n <= 9)%Z ->
  is_digit (digit_char n) = true /\ digit_val (digit_char n) = n /\
  is_space (digit_char n) = false /\ is_alpha (digit_char n) = false.
Proof. intros Hn. enum_Z n 0%Z 10%nat; repeat split. Qed.

Lemma is_digit_cases (c : ascii) :
  is_digit c = true -> exists n, (0 <= n <= 9)%Z /\ c = digit_char n.
Proof.
  intros Hc. exists (digit_val c).
  destruct c as [[] [] [] [] [] [] [] []]; try discriminate Hc;
    (split; [vm_compute; split; discriminate | reflexivity]).
Qed.

Lemma year_alts_fmt4 (y : Z) (rest : string) :
  (0 <= y <= 9999)%Z -> year_alts (fmt4 y ++ rest) = [(y, rest)].
Proof.
  intros Hy. unfold fmt4. cbn [append]. unfold year_alts.
  assert (H1 : (0 <= y / 1000 mod 10 <= 9)%Z) by (pose proof (Z.mod_pos_bound (y / 1000) 10); lia).
  assert (H2 : (0 <= y / 100 mod 10 <= 9)%Z) by (pose proof (Z.mod_pos_bound (y / 100) 10); lia).
  assert (H3 : (0 <= y / 10 mod 10 <= 9)%Z) by (pose proof (Z.mod_pos_bound (y / 10) 10); lia).
  assert (H4 : (0 <= y mod 10 <= 9)%Z) by (pose proof (Z.mod_pos_bound y 10); lia).
  destruct (digit_char_facts _ H1) as (-> & -> & _).
  destruct (digit_char_facts _ H2) as (-> & -> & _).
  destruct (digit_char_facts _ H3) as (-> & -> & _).
  destruct (digit_char_facts _ H4) as (-> & -> & _).
  cbn [andb]. do 2 f_equal.
  Z.div_mod_to_equations. lia.
Qed.

(** *** Stepping through the directives *)

Lemma first_some_dead {A B : Type} (k : A -> option B) (l : list A) :
  (forall x, In x l -> k x = None) -> first_some k l = None.
Proof.
  induction l as [|x l IH]; intros Hd; simpl; [reflexivity|].
  rewrite (Hd x) by now left. apply IH. intros; apply Hd; now right.
Qed.

Lemma first_some_head {A B : Type} (k : A -> option B) (x : A) (l : list A) :
  (forall y, In y l -> k y = None) -> first_some k (x :: l) = k x.
Proof.
  intros Hd. simpl. destruct (k x); [reflexivity|]. now apply first_some_dead.
Qed.

Lemma lit_on_digit (sep c : ascii) (r : string) :
  is_digit sep = false -> is_alpha sep = false -> is_digit c = true ->
  alts (DLit sep) (String c r) = [].
Proof.
  intros Hs Ha Hc. destruct (is_digit_cases c Hc) as (n & Hn & ->).
  cbn [alts].
  assert (Hl : to_lower sep = sep).
  { unfold to_lower. unfold is_alpha in Ha. apply orb_false_iff in Ha as [-> _]. reflexivity. }
  rewrite Hl.
  enum_Z n 0%Z 10%nat; cbn;
    match goal with |- (if Ascii.eqb ?a ?b then _ else _) = _ =>
      destruct (Ascii.eqb_spec a b) as [E|]; [|reflexivity] end;
    subst sep; discriminate.
Qed.

Lemma space_on_digit (c : ascii) (r : string) :
  is_digit c = true -> alts DSpace (String c r) = [].
Proof.
  intros Hc. destruct (is_digit_cases c Hc) as (n & Hn & ->).
  destruct (digit_char_facts n Hn) as (_ & _ & Hsp & _).
  cbn [alts space_alts]. now rewrite Hsp.
Qed.

Lemma digit_led_map {A B : Type} (g : A -> B) (l : list (A * string)) :
  digit_led l -> digit_led (map (fun '(v, r) => (g v, r)) l).
Proof.
  unfold digit_led. rewrite !Forall_forall. intros Hl p Hp.
  apply in_map_iff in Hp as ([v r] & <- & Hin). exact (Hl _ Hin).
Qed.

Lemma day_alts_fmt2 (v : Z) (rest : string) :
  (1 <= v <= 31)%Z ->
  exists extra, alts DDay (fmt2 v ++ rest) = (CapD v, rest) :: extra /\ digit_led extra.
Proof.
  intros Hv. enum_Z v 1%Z 31%nat;
    (eexists; split; [reflexivity | repeat constructor; simpl; eauto]).
Qed.

Lemma month_alts_fmt2 (v : Z) (rest : string) :
  (1 <= v <= 12)%Z ->
  exists extra, alts DMonth (fmt2 v ++ rest) = (CapM v, rest) :: extra /\ digit_led extra.
Proof.
  intros Hv. enum_Z v 1%Z 12%nat;
    (eexists; split; [reflexivity | repeat constructor; simpl; eauto]).
Qed.

Lemma month_alts_fmt2_high (v : Z) (rest : string) :
  (13 <= v <= 31)%Z -> digit_led (alts DMonth (fmt2 v ++ rest)).
Proof.
  intros Hv. enum_Z v 13%Z 19%nat; repeat constructor; simpl; eauto.
Qed.

Lemma step_head (d dn : directive) (ds : list directive) (f : Date) (s : string)
  (cap : capture) (r : string) (extra : list (capture * string)) :
  alts d s = (cap, r) :: extra ->
  (forall p, In p extra -> alts dn (snd p) = []) ->
  match_from (d :: dn :: ds) f s = match_from (dn :: ds) (set_field cap f) r.
Proof.
  intros Ha Hd. cbn [match_from]. rewrite Ha.
  rewrite first_some_head; [reflexivity|].
  intros [c' r'] Hin. pose proof (Hd _ Hin) as E. cbn [snd] in E.
  cbn [match_from]. now rewrite E.
Qed.

Lemma step_dead (d dn : directive) (ds : list directive) (f : Date) (s : string) :
  (forall p, In p (alts d s) -> alts dn (snd p) = []) ->
  match_from (d :: dn :: ds) f s = None.
Proof.
  intros Hd. cbn [match_from]. apply first_some_dead.
  intros [c' r'] Hin. pose proof (Hd _ Hin) as E. cbn [snd] in E.
  cbn [match_from]. now rewrite E.
Qed.

Lemma step_single (d : directive) (ds : list directive) (f : Date) (s : string)
  (cap : capture) (r : string) :
  alts d s = [(cap, r)] ->
  match_from (d :: ds) f s = match_from ds (set_field cap f) r.
Proof.
  intros Ha. cbn [match_from]. rewrite Ha. cbn [first_some].
  now destruct (match_from ds (set_field cap f) r).
Qed.

Lemma step_nil (d : directive) (ds : list directive) (f : Date) (s : string) :
  alts d s = [] -> match_from (d :: ds) f s = None.
Proof. intros Ha. cbn [match_from]. now rewrite Ha. Qed.

Lemma step_last (d : directive) (f : Date) (s : string)
  (cap : capture) (r : string) (extra : list (capture * string)) :
  alts d s = (cap, r) :: extra ->
  match_from [d] f s = Some (set_field cap f, r).
Proof. intros Ha. cbn [match_from]. now rewrite Ha. Qed.

Lemma step_lit (c : ascii) (ds : list directive) (f : Date) (rest : string) :
  match_from (DLit c :: ds) f (String c rest) = match_from ds f rest.
Proof.
  apply (step_single (DLit c) ds f _ CapNone rest).
  cbn [alts]. now rewrite Ascii.eqb_refl.
Qed.

Lemma step_space (ds : list directive) (f : Date) (rest : string) :
  space_alts rest = [] ->
  match_from (DSpace :: ds) f (String " " rest) = match_from ds f rest.
Proof.
  intros Hs. apply (step_single DSpace ds f _ CapNone rest).
  cbn [alts space_alts]. change (is_space " ") with true. cbn iota. now rewrite Hs.
Qed.

Lemma digit_led_dead_lit (sep : ascii) (extra : list (capture * string)) :
  is_sep sep = true -> digit_led extra ->
  forall p, In p extra -> alts (DLit sep) (snd p) = [].
Proof.
  unfold is_sep, digit_led. rewrite andb_true_iff, !negb_true_iff, Forall_forall.
  intros [Hd Ha] Hl p Hp. destruct (Hl _ Hp) as (c & r & -> & Hc).
  now apply lit_on_digit.
Qed.

Lemma digit_led_dead_space (extra : list (capture * string)) :
  digit_led extra -> forall p, In p extra -> alts DSpace (snd p) = [].
Proof.
  unfold digit_led. rewrite Forall_forall.
  intros Hl p Hp. destruct (Hl _ Hp) as (c & r & -> & Hc).
  now apply space_on_digit.
Qed.

(** *** Alternatives on the pieces of a formatted date *)

Lemma year_alts_piece (y : Z) (rest : string) :
  (0 <= y <= 9999)%Z -> alts DYear (fmt4 y ++ rest) = [(CapY y, rest)].
Proof. intros Hy. cbn [alts]. now rewrite year_alts_fmt4. Qed.

Lemma year_alts_after_two (a : Z) (sep : ascii) (rest : string) :
  is_digit sep = false -> alts DYear (fmt2 a ++ String sep rest) = [].
Proof.
  intros Hs. unfold fmt2. cbn [alts append year_alts].
  destruct rest; [reflexivity|]. now rewrite Hs, andb_false_r.
Qed.

Lemma names_not_numeric (m : Z) (rest : string) :
  (1 <= m <= 12)%Z ->
  (alts DYear (month_name m ++ rest) = [] /\
   alts DMonth (month_name m ++ rest) = [] /\
   alts DDay (month_name m ++ rest) = []) /\
  (alts DYear (month_abbr m ++ rest) = [] /\
   alts DMonth (month_abbr m ++ rest) = [] /\
   alts DDay (month_abbr m ++ rest) = []).
Proof.
  intros Hm. enum_Z m 1%Z 12%nat; repeat split; try reflexivity;
    cbn; now destruct rest.
Qed.

Lemma month_name_piece (m : Z) (rest : string) :
  (1 <= m <= 12)%Z ->
  alts DMonthName (month_name m ++ rest) = [(CapM m, rest)] /\
  alts DMonthAbbr (month_abbr m ++ rest) = [(CapM m, rest)] /\
  alts DMonthName (month_abbr m ++ String " " rest) =
    (if (m =? 5)%Z then [(CapM 5, String " " rest)] else []) /\
  space_alts (month_name m ++ rest) = [] /\
  space_alts (month_abbr m ++ rest) = [].
Proof.
  intros Hm. enum_Z m 1%Z 12%nat; repeat split; reflexivity.
Qed.

Lemma two_digits_piece (v : Z) (rest : string) :
  (1 <= v <= 31)%Z ->
  alts DMonthName (fmt2 v ++ rest) = [] /\
  alts DMonthAbbr (fmt2 v ++ rest) = [] /\
  space_alts (fmt2 v ++ rest) = [].
Proof.
  intros Hv. enum_Z v 1%Z 31%nat; repeat split; reflexivity.
Qed.

(** *** Matching whole formats *)

Lemma digit_led_app {A : Type} (l1 l2 : list (A * string)) :
  digit_led l1 -> digit_led l2 -> digit_led (l1 ++ l2).
Proof. unfold digit_led. intros. now apply Forall_app. Qed.

Lemma digit_led_two (p : ascii -> ascii -> bool) (c1 c2 c3 : ascii) (r : string) :
  is_digit c3 = true -> digit_led (two_chars p (String c1 (String c2 (String c3 r)))).
Proof.
  intros H3. unfold two_chars. destruct (p c1 c2); repeat constructor. simpl. eauto.
Qed.

Lemma digit_led_one (p : ascii -> bool) (c1 c2 : ascii) (r : string) :
  is_digit c2 = true -> digit_led (one_char p (String c1 (String c2 r))).
Proof.
  intros H2. unfold one_char. destruct (p c1); repeat constructor. simpl. eauto.
Qed.

Lemma numeric_on_digits (c1 c2 c3 : ascii) (r : string) :
  is_digit c2 = true -> is_digit c3 = true ->
  digit_led (alts DMonth (String c1 (String c2 (String c3 r)))) /\
  digit_led (alts DDay (String c1 (String c2 (String c3 r)))).
Proof.
  intros H2 H3. cbn [alts]. split; apply digit_led_map.
  - unfold month_alts. repeat apply digit_led_app;
      (now apply digit_led_two) || (now apply digit_led_one).
  - unfold day_alts. repeat apply digit_led_app;
      try (now apply digit_led_two); try (now apply digit_led_one).
    destruct (_ && _); repeat constructor. simpl. eauto.
Qed.

Lemma fmt4_digits (y : Z) :
  (0 <= y <= 9999)%Z ->
  exists c1 c2 c3 c4,
    fmt4 y = String c1 (String c2 (String c3 (String c4 ""))) /\
    is_digit c1 = true /\ is_digit c2 = true /\ is_digit c3 = true /\ is_digit c4 = true.
Proof.
  intros Hy. unfold fmt4. do 4 eexists. split; [reflexivity|].
  repeat split; apply digit_char_facts;
    match goal with |- (0 <= ?a mod 10 <= 9)%Z =>
      pose proof (Z.mod_pos_bound a 10); lia end.
Qed.

Lemma numeric_on_year (d : directive) (sep : ascii) (ds : list directive) (f : Date)
  (y : Z) (rest : string) :
  d = DMonth \/ d = DDay -> is_sep sep = true -> (0 <= y <= 9999)%Z ->
  match_from (d :: DLit sep :: ds) f (fmt4 y ++ rest) = None.
Proof.
  intros Hd Hsep Hy. destruct (fmt4_digits y Hy) as (c1 & c2 & c3 & c4 & -> & _ & H2 & H3 & _).
  cbn [append]. apply step_dead. apply digit_led_dead_lit; [assumption|].
  destruct (numeric_on_digits c1 c2 c3 (String c4 rest) H2 H3) as [Hm Hdd].
  now destruct Hd as [-> | ->].
Qed.

Lemma numeric_other_sep (d : directive) (sep sep' : ascii) (ds : list directive)
  (f : Date) (a : Z) (rest : string) :
  d = DMonth \/ d = DDay -> is_sep sep = true ->
  Ascii.eqb (to_lower sep') (to_lower sep) = false ->
  (1 <= a <= 31)%Z ->
  match_from (d :: DLit sep :: ds) f (fmt2 a ++ String sep' rest) = None.
Proof.
  intros Hd Hsep Hne Ha. apply step_dead.
  assert (Hhead : alts (DLit sep) (String sep' rest) = [])
    by (cbn [alts]; now rewrite Hne).
  assert (Hday : forall p, In p (alts DDay (fmt2 a ++ String sep' rest)) ->
                           alts (DLit sep) (snd p) = []).
  { destruct (day_alts_fmt2 a (String sep' rest) Ha) as (extra & -> & Hl).
    intros p [<-|Hp]; [exact Hhead | now apply (digit_led_dead_lit sep extra)]. }
  destruct Hd as [-> | ->]; [|exact Hday].
  destruct (Z_le_gt_dec a 12) as [Hlow|Hhigh].
  - destruct (month_alts_fmt2 a (String sep' rest) ltac:(lia)) as (extra & -> & Hl).
    intros p [<-|Hp]; [exact Hhead | now apply (digit_led_dead_lit sep extra)].
  - apply digit_led_dead_lit; [assumption|]. apply month_alts_fmt2_high. lia.
Qed.

Lemma numeric_on_name (d : directive) (ds : list directive) (f : Date)
  (m : Z) (rest : string) :
  d = DYear \/ d = DMonth \/ d = DDay -> (1 <= m <= 12)%Z ->
  match_from (d :: ds) f (month_name m ++ rest) = None /\
  match_from (d :: ds) f (month_abbr m ++ rest) = None.
Proof.
  intros Hd Hm.
  destruct (names_not_numeric m rest Hm) as ((H1 & H2 & H3) & (H4 & H5 & H6)).
  destruct Hd as [-> | [-> | ->]]; split; now apply step_nil.
Qed.

Lemma year_after_two (sep : ascii) (ds : list directive) (f : Date) (a : Z) (rest : string) :
  is_sep sep = true ->
  match_from (DYear :: ds) f (fmt2 a ++ String sep rest) = None.
Proof.
  intros Hsep. apply step_nil, year_alts_after_two.
  unfold is_sep in Hsep. apply andb_true_iff in Hsep as [Hd _].
  now apply negb_true_iff.
Qed.

(** [%m<sep>%d<sep>%Y] on [aa<sep>bb<sep>yyyy] *)
Lemma month_day_year (sep : ascii) (f : Date) (a b y : Z) :
  is_sep sep = true -> (1 <= a <= 31)%Z -> (1 <= b <= 31)%Z -> (0 <= y <= 9999)%Z ->
  match_from [DMonth; DLit sep; DDay; DLit sep; DYear] f
    (fmt2 a ++ String sep (fmt2 b ++ String sep (fmt4 y ++ ""))) =
  if (a <=? 12)%Z then Some (mkDate y a b, "") else None.
Proof.
  intros Hsep Ha Hb Hy. destruct (Z.leb_spec a 12) as [Hlow|Hhigh].
  - destruct (month_alts_fmt2 a (String sep (fmt2 b ++ String sep (fmt4 y ++ "")))
                ltac:(lia)) as (e1 & E1 & L1).
    rewrite (step_head _ _ _ _ _ _ _ _ E1 (digit_led_dead_lit sep e1 Hsep L1)), step_lit.
    destruct (day_alts_fmt2 b (String sep (fmt4 y ++ "")) Hb) as (e2 & E2 & L2).
    rewrite (step_head _ _ _ _ _ _ _ _ E2 (digit_led_dead_lit sep e2 Hsep L2)), step_lit.
    now rewrite (step_last _ _ _ _ _ _ (year_alts_piece y "" Hy)).
  - apply step_dead, digit_led_dead_lit; [assumption|].
    apply month_alts_fmt2_high. lia.
Qed.

(** [%d<sep>%m<sep>%Y] on [aa<sep>bb<sep>yyyy] *)
Lemma day_month_year (sep : ascii) (f : Date) (a b y : Z) :
  is_sep sep = true -> (1 <= a <= 31)%Z -> (1 <= b <= 31)%Z -> (0 <= y <= 9999)%Z ->
  match_from [DDay; DLit sep; DMonth; DLit sep; DYear] f
    (fmt2 a ++ String sep (fmt2 b ++ String sep (fmt4 y ++ ""))) =
  if (b <=? 12)%Z then Some (mkDate y b a, "") else None.
Proof.
  intros Hsep Ha Hb Hy.
  destruct (day_alts_fmt2 a (String sep (fmt2 b ++ String sep (fmt4 y ++ ""))) Ha)
    as (e1 & E1 & L1).
  rewrite (step_head _ _ _ _ _ _ _ _ E1 (digit_led_dead_lit sep e1 Hsep L1)), step_lit.
  destruct (Z.leb_spec b 12) as [Hlow|Hhigh].
  - destruct (month_alts_fmt2 b (String sep (fmt4 y ++ "")) ltac:(lia)) as (e2 & E2 & L2).
    rewrite (step_head _ _ _ _ _ _ _ _ E2 (digit_led_dead_lit sep e2 Hsep L2)), step_lit.
    now rewrite (step_last _ _ _ _ _ _ (year_alts_piece y "" Hy)).
  - apply step_dead, digit_led_dead_lit; [assumption|].
    apply month_alts_fmt2_high. lia.
Qed.

(** [%Y<sep>%m<sep>%d] on [yyyy<sep'>mm<sep'>dd] *)
Lemma year_month_day (sep sep' : ascii) (f : Date) (y m d : Z) :
  is_sep sep = true -> (0 <= y <= 9999)%Z -> (1 <= m <= 12)%Z -> (1 <= d <= 31)%Z ->
  match_from [DYear; DLit sep; DMonth; DLit sep; DDay] f
    (fmt4 y ++ String sep' (fmt2 m ++ String sep' (fmt2 d ++ ""))) =
  if Ascii.eqb (to_lower sep') (to_lower sep) then Some (mkDate y m d, "") else None.
Proof.
  intros Hsep Hy Hm Hd.
  rewrite (step_single _ _ _ _ _ _ (year_alts_piece y _ Hy)).
  destruct (Ascii.eqb (to_lower sep') (to_lower sep)) eqn:E.
  - assert (Hl : forall ds g r,
               match_from (DLit sep :: ds) g (String sep' r) = match_from ds g r).
    { intros ds g r. apply (step_single _ _ _ _ CapNone r). cbn [alts]. now rewrite E. }
    rewrite Hl.
    destruct (month_alts_fmt2 m (String sep' (fmt2 d ++ "")) Hm) as (e1 & E1 & L1).
    rewrite (step_head _ _ _ _ _ _ _ _ E1 (digit_led_dead_lit sep e1 Hsep L1)), Hl.
    destruct (day_alts_fmt2 d "" Hd) as (e2 & E2 & L2).
    now rewrite (step_last _ _ _ _ _ _ E2).
  - apply step_nil. cbn [alts]. now rewrite E.
Qed.

Lemma space_alts_year (y : Z) (rest : string) :
  (0 <= y <= 9999)%Z -> space_alts (fmt4 y ++ rest) = [].
Proof.
  intros Hy. destruct (fmt4_digits y Hy) as (c1 & c2 & c3 & c4 & -> & H1 & _).
  pose proof (space_on_digit c1 (String c2 (String c3 (String c4 rest))) H1) as E.
  cbn [alts] in E. cbn [append]. now destruct (space_alts _).
Qed.

(** [<name> %d, %Y] on [Name dd, yyyy] *)
Lemma name_day_year (dn : directive) (name : string) (f : Date) (m d y : Z) :
  (1 <= d <= 31)%Z -> (0 <= y <= 9999)%Z ->
  let rest := String " " (fmt2 d ++ String "," (String " " (fmt4 y ++ ""))) in
  (alts dn (name ++ rest) = [(CapM m, rest)] ->
   match_from [dn; DSpace; DDay; DLit ","; DSpace; DYear] f (name ++ rest) =
   Some (mkDate y m d, "")) /\
  (alts dn (name ++ rest) = [] ->
   match_from [dn; DSpace; DDay; DLit ","; DSpace; DYear] f (name ++ rest) = None).
Proof.
  intros Hd Hy rest. split; intros Hn; [|now apply step_nil].
  rewrite (step_single _ _ _ _ _ _ Hn). unfold rest.
  rewrite step_space by now apply two_digits_piece.
  destruct (day_alts_fmt2 d (String "," (String " " (fmt4 y ++ ""))) Hd) as (e & E & L).
  rewrite (step_head _ _ _ _ _ _ _ _ E (digit_led_dead_lit "," e eq_refl L)), step_lit.
  rewrite step_space by now apply space_alts_year.
  now rewrite (step_last _ _ _ _ _ _ (year_alts_piece y "" Hy)).
Qed.

(** [%d <name> %Y] on [dd Name yyyy] *)
Lemma day_name_year (dn : directive) (name : string) (f : Date) (m d y : Z) :
  (1 <= d <= 31)%Z -> (0 <= y <= 9999)%Z ->
  let rest := String " " (fmt4 y ++ "") in
  space_alts (name ++ rest) = [] ->
  (alts dn (name ++ rest) = [(CapM m, rest)] ->
   match_from [DDay; DSpace; dn; DSpace; DYear] f (fmt2 d ++ String " " (name ++ rest)) =
   Some (mkDate y m d, "")) /\
  (alts dn (name ++ rest) = [] ->
   match_from [DDay; DSpace; dn; DSpace; DYear] f (fmt2 d ++ String " " (name ++ rest)) =
   None).
Proof.
  intros Hd Hy rest Hsp.
  destruct (day_alts_fmt2 d (String " " (name ++ rest)) Hd) as (e & E & L).
  rewrite (step_head _ _ _ _ _ _ _ _ E (digit_led_dead_space e L)).
  rewrite (step_space _ _ _ Hsp).
  split; intros Hn; [|now apply step_nil].
  rewrite (step_single _ _ _ _ _ _ Hn). unfold rest.
  rewrite step_space by now apply space_alts_year.
  now rewrite (step_last _ _ _ _ _ _ (year_alts_piece y "" Hy)).
Qed.

(** *** From a match to the result of [to_datetime] *)

Lemma to_datetime_none (s fmt : string) (ds : list directive) :
  compile fmt = Some ds -> match_from ds fields0 s = None ->
  to_datetime_format s fmt = None.
Proof. intros Hc Hm. unfold to_datetime_format. now rewrite Hc, Hm. Qed.

Lemma to_datetime_some (s fmt : string) (ds : list directive) (d : Date) :
  compile fmt = Some ds -> match_from ds fields0 s = Some (d, "") ->
  valid_date d = true ->
  to_datetime_format s fmt = Some d.
Proof. intros Hc Hm Hv. unfold to_datetime_format. now rewrite Hc, Hm, Hv. Qed.

Lemma try_formats_skip (fmt : string) (fmts : list string) (s : string) :
  to_datetime_format s fmt = None ->
  try_formats (fmt :: fmts) s = try_formats fmts s.
Proof. intros E. cbn [try_formats]. now rewrite E. Qed.

Lemma try_formats_hit (fmt : string) (fmts : list string) (s : string) (d : Date) :
  to_datetime_format s fmt = Some d ->
  try_formats (fmt :: fmts) s = Some d.
Proof. intros E. cbn [try_formats]. now rewrite E. Qed.

Lemma valid_date_ranges (y m d : Z) :
  valid_date (mkDate y m d) = true ->
  (0 <= y <= 9999)%Z /\ (1 <= m <= 12)%Z /\ (1 <= d <= 31)%Z.
Proof.
  unfold valid_date. cbn [year month day].
  rewrite !andb_true_iff, !Z.leb_le. intros (((((H1 & H2) & H3) & H4) & H5) & H6).
  assert (days_in_month y m <= 31)%Z.
  { unfold days_in_month.
    destruct (m =? 2)%Z; [destruct (is_leap y); lia|].
    destruct (_ || _); lia. }
  lia.
Qed.

(** A day and a month exchanged still make a date when the day is at
    most 12. *)
Lemma valid_date_swap (y m d : Z) :
  valid_date (mkDate y m d) = true -> (d <= 12)%Z ->
  valid_date (mkDate y d m) = true.
Proof.
  intros Hv Hd. destruct (valid_date_ranges y m d Hv) as (Hy & Hm & Hdd).
  unfold valid_date in *. cbn [year month day] in *.
  rewrite !andb_true_iff, !Z.leb_le in *.
  assert (28 <= days_in_month y d)%Z.
  { unfold days_in_month.
    destruct (d =? 2)%Z; [destruct (is_leap y); lia|].
    destruct (_ || _); lia. }
  lia.
Qed.

(** *** Trimming a formatted date *)

Lemma tight_cons (c : ascii) (s : string) : tight s -> tight (String c s).
Proof.
  intros [Hr Hne]. split; [|discriminate].
  cbn [rstrip]. rewrite Hr. destruct s; [contradiction | reflexivity].
Qed.

Lemma tight_app (a s : string) : tight s -> tight (a ++ s).
Proof.
  intros Hs. induction a as [|c a IH]; [exact Hs|].
  cbn [append]. now apply tight_cons.
Qed.

Lemma tight_digit (c : ascii) : is_digit c = true -> tight (String c "").
Proof.
  intros Hc. destruct (is_digit_cases c Hc) as (n & Hn & ->).
  destruct (digit_char_facts n Hn) as (_ & _ & Hsp & _).
  split; [|discriminate]. cbn [rstrip]. now rewrite Hsp.
Qed.

Lemma fmt2_digits (v : Z) :
  exists c1 c2, fmt2 v = String c1 (String c2 "") /\
                is_digit c1 = true /\ is_digit c2 = true.
Proof.
  unfold fmt2. do 2 eexists. split; [reflexivity|].
  split; apply digit_char_facts;
    match goal with |- (0 <= ?a mod 10 <= 9)%Z =>
      pose proof (Z.mod_pos_bound a 10); lia end.
Qed.

Lemma tight_fmt2 (v : Z) : tight (fmt2 v ++ "").
Proof.
  destruct (fmt2_digits v) as (c1 & c2 & -> & _ & H2).
  cbn [append]. now apply tight_cons, tight_digit.
Qed.

Lemma tight_fmt4 (y : Z) : (0 <= y <= 9999)%Z -> tight (fmt4 y ++ "").
Proof.
  intros Hy. destruct (fmt4_digits y Hy) as (c1 & c2 & c3 & c4 & -> & _ & _ & _ & H4).
  cbn [append]. now apply tight_cons, tight_cons, tight_cons, tight_digit.
Qed.

Lemma lstrip_digit (c : ascii) (s : string) :
  is_digit c = true -> lstrip (String c s) = String c s.
Proof.
  intros Hc. destruct (is_digit_cases c Hc) as (n & Hn & ->).
  destruct (digit_char_facts n Hn) as (_ & _ & Hsp & _).
  cbn [lstrip]. now rewrite Hsp.
Qed.

Lemma lstrip_fmt2 (v : Z) (r : string) : lstrip (fmt2 v ++ r) = fmt2 v ++ r.
Proof.
  destruct (fmt2_digits v) as (c1 & c2 & -> & H1 & _). now apply lstrip_digit.
Qed.

Lemma lstrip_fmt4 (y : Z) (r : string) :
  (0 <= y <= 9999)%Z -> lstrip (fmt4 y ++ r) = fmt4 y ++ r.
Proof.
  intros Hy. destruct (fmt4_digits y Hy) as (c1 & c2 & c3 & c4 & -> & H1 & _).
  now apply lstrip_digit.
Qed.

Lemma lstrip_name (m : Z) (r : string) :
  (1 <= m <= 12)%Z ->
  lstrip (month_name m ++ r) = month_name m ++ r /\
  lstrip (month_abbr m ++ r) = month_abbr m ++ r.
Proof. intros Hm. enum_Z m 1%Z 12%nat; split; reflexivity. Qed.

Lemma strip_tight (s : string) : lstrip s = s -> tight s -> strip s = s.
Proof. intros Hl [Hr _]. unfold strip. now rewrite Hl. Qed.

(** *** The formats, one by one *)

Ltac fails_by tac :=
  rewrite try_formats_skip;
  [| eapply to_datetime_none; [reflexivity | tac]].

Ltac hits_by tac :=
  apply try_formats_hit; eapply to_datetime_some; [reflexivity | tac | assumption].

Ltac year_two := apply year_after_two; reflexivity.
Ltac other_sep := apply numeric_other_sep; [auto | reflexivity | reflexivity | lia].
Ltac on_year := apply numeric_on_year; [auto | reflexivity | lia].
Ltac on_name := apply numeric_on_name; [auto | lia].

Section RoundTrip.
Variables y m d : Z.
Hypothesis Hv : valid_date (mkDate y m d) = true.

Let Hy : (0 <= y <= 9999)%Z := proj1 (valid_date_ranges y m d Hv).
Let Hm : (1 <= m <= 12)%Z := proj1 (proj2 (valid_date_ranges y m d Hv)).
Let Hd : (1 <= d <= 31)%Z := proj2 (proj2 (valid_date_ranges y m d Hv)).

Lemma parse_iso :
  try_formats date_formats (strftime "%Y-%m-%d" (mkDate y m d)) = Some (mkDate y m d).
Proof.
  change (strftime "%Y-%m-%d" (mkDate y m d))
    with (fmt4 y ++ String "-" (fmt2 m ++ String "-" (fmt2 d ++ ""))).
  unfold date_formats.
  hits_by ltac:(rewrite (year_month_day "-" "-") by (reflexivity || lia); reflexivity).
Qed.

Lemma parse_us_slash :
  try_formats date_formats (strftime "%m/%d/%Y" (mkDate y m d)) = Some (mkDate y m d).
Proof.
  change (strftime "%m/%d/%Y" (mkDate y m d))
    with (fmt2 m ++ String "/" (fmt2 d ++ String "/" (fmt4 y ++ ""))).
  unfold date_formats.
  fails_by year_two.
  hits_by ltac:(rewrite (month_day_year "/") by (reflexivity || lia);
                replace (m <=? 12)%Z with true by (symmetry; apply Z.leb_le; lia);
                reflexivity).
Qed.

Lemma parse_eu_slash :
  (12 < d)%Z \/ d = m ->
  try_formats date_formats (strftime "%d/%m/%Y" (mkDate y m d)) = Some (mkDate y m d).
Proof.
  intros Hc.
  change (strftime "%d/%m/%Y" (mkDate y m d))
    with (fmt2 d ++ String "/" (fmt2 m ++ String "/" (fmt4 y ++ ""))).
  unfold date_formats.
  fails_by year_two.
  destruct (Z.leb_spec d 12) as [Hlow|Hhigh].
  - assert (d = m) by lia. subst d.
    hits_by ltac:(rewrite (month_day_year "/") by (reflexivity || lia);
                  replace (m <=? 12)%Z with true by (symmetry; apply Z.leb_le; lia);
                  reflexivity).
  - fails_by ltac:(rewrite (month_day_year "/") by (reflexivity || lia);
                   replace (d <=? 12)%Z with false by (symmetry; apply Z.leb_gt; lia);
                   reflexivity).
    hits_by ltac:(rewrite (day_month_year "/") by (reflexivity || lia);
                  replace (m <=? 12)%Z with true by (symmetry; apply Z.leb_le; lia);
                  reflexivity).
Qed.

Lemma parse_us_dash :
  try_formats date_formats (strftime "%m-%d-%Y" (mkDate y m d)) = Some (mkDate y m d).
Proof.
  change (strftime "%m-%d-%Y" (mkDate y m d))
    with (fmt2 m ++ String "-" (fmt2 d ++ String "-" (fmt4 y ++ ""))).
  unfold date_formats.
  fails_by year_two. fails_by other_sep. fails_by other_sep.
  hits_by ltac:(rewrite (month_day_year "-") by (reflexivity || lia);
                replace (m <=? 12)%Z with true by (symmetry; apply Z.leb_le; lia);
                reflexivity).
Qed.

Lemma parse_eu_dash :
  (12 < d)%Z \/ d = m ->
  try_formats date_formats (strftime "%d-%m-%Y" (mkDate y m d)) = Some (mkDate y m d).
Proof.
  intros Hc.
  change (strftime "%d-%m-%Y" (mkDate y m d))
    with (fmt2 d ++ String "-" (fmt2 m ++ String "-" (fmt4 y ++ ""))).
  unfold date_formats.
  fails_by year_two. fails_by other_sep. fails_by other_sep.
  destruct (Z.leb_spec d 12) as [Hlow|Hhigh].
  - assert (d = m) by lia. subst d.
    hits_by ltac:(rewrite (month_day_year "-") by (reflexivity || lia);
                  replace (m <=? 12)%Z with true by (symmetry; apply Z.leb_le; lia);
                  reflexivity).
  - fails_by ltac:(rewrite (month_day_year "-") by (reflexivity || lia);
                   replace (d <=? 12)%Z with false by (symmetry; apply Z.leb_gt; lia);
                   reflexivity).
    hits_by ltac:(rewrite (day_month_year "-") by (reflexivity || lia);
                  replace (m <=? 12)%Z with true by (symmetry; apply Z.leb_le; lia);
                  reflexivity).
Qed.

Lemma parse_ymd_slash :
  try_formats date_formats (strftime "%Y/%m/%d" (mkDate y m d)) = Some (mkDate y m d).
Proof.
  change (strftime "%Y/%m/%d" (mkDate y m d))
    with (fmt4 y ++ String "/" (fmt2 m ++ String "/" (fmt2 d ++ ""))).
  unfold date_formats.
  fails_by ltac:(rewrite (year_month_day "-" "/") by (reflexivity || lia); reflexivity).
  fails_by on_year. fails_by on_year. fails_by on_year. fails_by on_year.
  hits_by ltac:(rewrite (year_month_day "/" "/") by (reflexivity || lia); reflexivity).
Qed.

Lemma parse_long_month_first :
  try_formats date_formats (strftime "%B %d, %Y" (mkDate y m d)) = Some (mkDate y m d).
Proof.
  change (strftime "%B %d, %Y" (mkDate y m d))
    with (month_name m ++ String " " (fmt2 d ++ String "," (String " " (fmt4 y ++ "")))).
  unfold date_formats.
  do 6 fails_by on_name.
  hits_by ltac:(apply (name_day_year DMonthName (month_name m) fields0 m d y Hd Hy);
                now apply month_name_piece).
Qed.

Lemma parse_short_month_first :
  try_formats date_formats (strftime "%b %d, %Y" (mkDate y m d)) = Some (mkDate y m d).
Proof.
  change (strftime "%b %d, %Y" (mkDate y m d))
    with (month_abbr m ++ String " " (fmt2 d ++ String "," (String " " (fmt4 y ++ "")))).
  unfold date_formats.
  do 6 fails_by on_name.
  destruct (month_name_piece m (fmt2 d ++ String "," (String " " (fmt4 y ++ ""))) Hm)
    as (_ & _ & Hfull & _).
  destruct (Z.eqb_spec m 5) as [E|_].
  - hits_by ltac:(apply (name_day_year DMonthName (month_abbr m) fields0 m d y Hd Hy);
                  rewrite Hfull; now rewrite E).
  - fails_by ltac:(now apply (name_day_year DMonthName (month_abbr m) fields0 m d y Hd Hy)).
    hits_by ltac:(apply (name_day_year DMonthAbbr (month_abbr m) fields0 m d y Hd Hy);
                  now apply month_name_piece).
Qed.

Lemma parse_long_month_second :
  try_formats date_formats (strftime "%d %B %Y" (mkDate y m d)) = Some (mkDate y m d).
Proof.
  change (strftime "%d %B %Y" (mkDate y m d))
    with (fmt2 d ++ String " " (month_name m ++ String " " (fmt4 y ++ ""))).
  unfold date_formats.
  fails_by year_two. do 4 fails_by other_sep. fails_by year_two.
  fails_by ltac:(apply step_nil; now apply two_digits_piece).
  fails_by ltac:(apply step_nil; now apply two_digits_piece).
  hits_by ltac:(apply (day_name_year DMonthName (month_name m) fields0 m d y Hd Hy);
                now apply month_name_piece).
Qed.

Lemma parse_short_month_second :
  try_formats date_formats (strftime "%d %b %Y" (mkDate y m d)) = Some (mkDate y m d).
Proof.
  change (strftime "%d %b %Y" (mkDate y m d))
    with (fmt2 d ++ String " " (month_abbr m ++ String " " (fmt4 y ++ ""))).
  unfold date_formats.
  fails_by year_two. do 4 fails_by other_sep. fails_by year_two.
  fails_by ltac:(apply step_nil; now apply two_digits_piece).
  fails_by ltac:(apply step_nil; now apply two_digits_piece).
  destruct (month_name_piece m (fmt4 y ++ "") Hm) as (_ & _ & Hfull & _ & _).
  destruct (Z.eqb_spec m 5) as [E|_].
  - hits_by ltac:(apply (day_name_year DMonthName (month_abbr m) fields0 m d y Hd Hy);
                  [apply month_name_piece; lia | rewrite Hfull; now rewrite E]).
  - fails_by ltac:(apply (day_name_year DMonthName (month_abbr m) fields0 m d y Hd Hy);
                   [apply month_name_piece; lia | exact Hfull]).
    hits_by ltac:(apply (day_name_year DMonthAbbr (month_abbr m) fields0 m d y Hd Hy);
                  [apply month_name_piece; lia | now apply month_name_piece]).
Qed.

Lemma parse_eu_slash_swapped :
  (d <= 12)%Z ->
  try_formats date_formats (strftime "%d/%m/%Y" (mkDate y m d)) = Some (mkDate y d m).
Proof.
  intros Hle.
  change (strftime "%d/%m/%Y" (mkDate y m d))
    with (fmt2 d ++ String "/" (fmt2 m ++ String "/" (fmt4 y ++ ""))).
  unfold date_formats.
  fails_by year_two.
  apply try_formats_hit. eapply to_datetime_some; [reflexivity | | now apply valid_date_swap].
  rewrite (month_day_year "/") by (reflexivity || lia).
  now replace (d <=? 12)%Z with true by (symmetry; apply Z.leb_le; lia).
Qed.

Lemma parse_eu_dash_swapped :
  (d <= 12)%Z ->
  try_formats date_formats (strftime "%d-%m-%Y" (mkDate y m d)) = Some (mkDate y d m).
Proof.
  intros Hle.
  change (strftime "%d-%m-%Y" (mkDate y m d))
    with (fmt2 d ++ String "-" (fmt2 m ++ String "-" (fmt4 y ++ ""))).
  unfold date_formats.
  fails_by year_two. fails_by other_sep. fails_by other_sep.
  apply try_formats_hit. eapply to_datetime_some; [reflexivity | | now apply valid_date_swap].
  rewrite (month_day_year "-") by (reflexivity || lia).
  now replace (d <=? 12)%Z with true by (symmetry; apply Z.leb_le; lia).
Qed.

End RoundTrip.

(** *** The round trip *)

Ltac tight_steps :=
  repeat match goal with
  | |- tight (fmt2 _ ++ "") => apply tight_fmt2
  | |- tight (fmt4 _ ++ "") => apply tight_fmt4; assumption
  | |- tight (_ ++ String _ _) => apply tight_app
  | |- tight (String _ _) => apply tight_cons
  end.

Lemma strip_strftime (fmt : string) (dt : Date) :
  In fmt date_formats -> valid_date dt = true ->
  strip (strftime fmt dt) = strftime fmt dt.
Proof.
  intros Hin Hv. destruct dt as [y m d].
  destruct (valid_date_ranges y m d Hv) as (Hy & Hm & Hd).
  unfold date_formats in Hin. cbn [In] in Hin.
  repeat (destruct Hin as [<-|Hin]); [..|contradiction];
    cbn [strftime Ascii.eqb Bool.eqb andb year month day];
    apply strip_tight;
    match goal with
    | |- lstrip (fmt4 _ ++ _) = _ => apply lstrip_fmt4; assumption
    | |- lstrip (fmt2 _ ++ _) = _ => apply lstrip_fmt2
    | |- lstrip (month_name _ ++ _) = _ => apply lstrip_name; assumption
    | |- lstrip (month_abbr _ ++ _) = _ => apply lstrip_name; assumption
    | |- tight _ => tight_steps
    end.
Qed.

Lemma try_formats_round_trip (fmt : string) (dt : Date) :
  In fmt date_formats -> valid_date dt = true ->
  (day_first fmt = false \/ (12 < day dt)%Z \/ day dt = month dt ->
   try_formats date_formats (strftime fmt dt) = Some dt) /\
  (day_first fmt = true -> (day dt <= 12)%Z ->
   try_formats date_formats (strftime fmt dt) =
   Some (mkDate (year dt) (day dt) (month dt))).
Proof.
  intros Hin Hv. destruct dt as [y m d]. cbn [year month day].
  unfold date_formats in Hin. cbn [In] in Hin.
  repeat (destruct Hin as [<-|Hin]); [..|contradiction];
    (split; [intros Hc | intros Hf Hle; try discriminate Hf]).
  - now apply parse_iso.
  - now apply parse_us_slash.
  - apply parse_eu_slash; [assumption|]. destruct Hc as [Hc|Hc]; [discriminate | exact Hc].
  - now apply parse_eu_slash_swapped.
  - now apply parse_us_dash.
  - apply parse_eu_dash; [assumption|]. destruct Hc as [Hc|Hc]; [discriminate | exact Hc].
  - now apply parse_eu_dash_swapped.
  - now apply parse_ymd_slash.
  - now apply parse_long_month_first.
  - now apply parse_short_month_first.
  - now apply parse_long_month_second.
  - now apply parse_short_month_second.
Qed.

(** C2, as stated, fails: a date written day first is read month first
    whenever its day is at most 12, because [%m/%d/%Y] is tried before
    [%d/%m/%Y].  The 5th of January 2024 formatted with [%d/%m/%Y] is
    [05/01/2024], which normalizes to the 1st of May 2024. *)
Lemma day_first_read_month_first :
  In "%d/%m/%Y" date_formats /\
  valid_date (mkDate 2024 1 5) = true /\
  strftime "%d/%m/%Y" (mkDate 2024 1 5) = "05/01/2024" /\
  @clean_and_parse_date plain_pandas (CText (strftime "%d/%m/%Y" (mkDate 2024 1 5)))
  = Some (mkDate 2024 5 1) /\
  @clean_and_parse_date plain_pandas (CText (strftime "%d-%m-%Y" (mkDate 2024 1 5)))
  = Some (mkDate 2024 5 1).
Proof. repeat split; try reflexivity. cbn. auto. Qed.

(** C2, amended: for every format of the list and every date of the
    calendar that a [Timestamp] holds (years 1678 to 2261), formatting
    and then normalizing gives the date back when the format is not one of
    the two day-first formats [%d/%m/%Y] and [%d-%m-%Y], and for those two
    when the day is above 12 or equal to the month; for those two and a
    day of at most 12 the result is the date with day and month exchanged,
    the month-first format of the same separator being the first of the
    list to parse. *)
Theorem date_round_trip `{Pandas} (fmt : string) (dt : Date) :
  In fmt date_formats -> valid_date dt = true ->
  (day_first fmt = false \/ (12 < day dt)%Z \/ day dt = month dt ->
   clean_and_parse_date (CText (strftime fmt dt)) = Some dt) /\
  (day_first fmt = true -> (day dt <= 12)%Z ->
   clean_and_parse_date (CText (strftime fmt dt)) =
   Some (mkDate (year dt) (day dt) (month dt))).
Proof.
  intros Hin Hv. unfold clean_and_parse_date. cbn [isna str].
  rewrite (strip_strftime fmt dt Hin Hv).
  destruct (try_formats_round_trip fmt dt Hin Hv) as [Hsame Hswap].
  split.
  - intros Hc. now rewrite (Hsame Hc).
  - intros Hf Hle. now rewrite (Hswap Hf Hle).
Qed.

Lemma date_round_trip_witness :
  @clean_and_parse_date plain_pandas (CText (strftime "%d/%m/%Y" (mkDate 2024 1 25)))
  = Some (mkDate 2024 1 25) /\
  @clean_and_parse_date plain_pandas (CText (strftime "%b %d, %Y" (mkDate 2024 2 29)))
  = Some (mkDate 2024 2 29).
Proof.
  split.
  - apply (proj1 (@date_round_trip plain_pandas "%d/%m/%Y" (mkDate 2024 1 25)
                    ltac:(cbn; auto) eq_refl)).
    right. left. cbn. lia.
  - apply (proj1 (@date_round_trip plain_pandas "%b %d, %Y" (mkDate 2024 2 29)
                    ltac:(cbn; auto 10) eq_refl)).
    now left.
Defined.

(** ** RecordExtractor *)

Section RecordExtractor.
Context `{Pandas}.

Lemma filter_map_In {A B : Type} (f : A -> option B) (l : list A) (y : B) :
  In y (filter_map f l) <-> exists x, In x l /\ f x = Some y.
Proof.
  induction l as [|a l IH]; simpl.
  - split; [contradiction | now intros (x & [] & _)].
  - destruct (f a) as [b|] eqn:Fa; simpl; rewrite IH; split.
    + intros [<-|(x & Hx & Fx)]; [now exists a; auto | exists x; auto].
    + intros (x & [<-|Hx] & Fx); [left; congruence | right; now exists x].
    + intros (x & Hx & Fx). exists x; auto.
    + intros (x & [<-|Hx] & Fx); [congruence | now exists x].
Qed.

Lemma positive_iff (h : Q) : positive h = true <-> (0 < h)%Q.
Proof.
  unfold positive. rewrite negb_true_iff. split.
  - intros Hb. apply Qnot_le_lt. intros Hle.
    apply Qle_bool_iff in Hle. congruence.
  - intros Hlt. destruct (Qle_bool h 0) eqn:E; [|reflexivity].
    apply Qle_bool_iff in E. exfalso. now apply (Qlt_not_le _ _ Hlt).
Qed.

Lemma clean_row_Some (df : DataFrame) (dc hc r : nat) (d : Date) (h : Q) :
  clean_row df dc hc r = Some (d, h) <->
  clean_and_parse_date (iloc df r dc) = Some d /\
  to_numeric (iloc df r hc) = Some h /\ (0 < h)%Q.
Proof.
  unfold clean_row.
  destruct (clean_and_parse_date (iloc df r dc)) as [d'|];
    destruct (to_numeric (iloc df r hc)) as [h'|];
    try (split; [discriminate | now intros (? & ? & ?)]).
  destruct (positive h') eqn:Ph.
  - split.
    + intros [= -> ->]. repeat split. now apply positive_iff.
    + now intros ([= ->] & [= ->] & _).
  - split; [discriminate|]. intros (_ & [= ->] & Hlt).
    apply positive_iff in Hlt. congruence.
Qed.

Lemma clean_row_dropped (df : DataFrame) (dc hc r : nat) :
  dropped_row df dc hc r -> clean_row df dc hc r = None.
Proof.
  unfold dropped_row, clean_row. intros [E|[E|(h & E & Hle)]]; rewrite E.
  - reflexivity.
  - now destruct (clean_and_parse_date _).
  - destruct (clean_and_parse_date _); [|reflexivity].
    destruct (positive h) eqn:Ph; [|reflexivity].
    apply positive_iff in Ph. exfalso. now apply (Qlt_not_le _ _ Ph).
Qed.

Lemma filter_map_none {A B : Type} (f : A -> option B) (l : list A) :
  (forall x, In x l -> f x = None) -> filter_map f l = [].
Proof.
  induction l as [|a l IH]; simpl; intros Hall; [reflexivity|].
  rewrite (Hall a) by now left. apply IH. intros; apply Hall; now right.
Qed.

Lemma data_rows_In (df : DataFrame) (hr r : nat) :
  In r (data_rows df (hr + 1)) <-> hr < r /\ r < len df.
Proof. unfold data_rows. rewrite in_seq. lia. Qed.

Lemma detect_headers_not_empty (df : DataFrame) (hr dc hc : nat) :
  detect_headers df = (Some hr, Some dc, Some hc) -> df_empty df = false.
Proof.
  intros E. apply detect_headers_found in E as (Hr & _ & (Hc & _) & _).
  unfold window in Hr. unfold df_empty. apply orb_false_iff. split; apply Nat.eqb_neq; lia.
Qed.

End RecordExtractor.

(** C4: on a sheet whose header is found and that has data rows below it,
    a data row whose date does not parse, whose hours are not a number or
    whose hours are zero or less never reaches the output and does not
    make the file an error: as soon as one row is kept the file is
    [Extracted], and its records are exactly the kept rows, each with the
    developer name of the file; when every data row is dropped the file
    is [Rejected] with the "no valid data" reason. *)
Theorem extract_data_drops_rows `{Pandas}
  (df : DataFrame) (file_name : string) (hr dc hc : nat) :
  detect_headers df = (Some hr, Some dc, Some hc) ->
  hr + 1 < len df ->
  ((exists r d h, kept_row df hr dc hc r d h) ->
   exists data,
     extract_data_from_xlsx (Sheet df) file_name = Extracted data /\
     forall row,
       In row data <->
       rDeveloper row = extract_developer_name file_name /\
       exists r, kept_row df hr dc hc r (rDate row) (rHours row)) /\
  ((forall r, hr < r -> r < len df -> dropped_row df dc hc r) ->
   extract_data_from_xlsx (Sheet df) file_name =
   Rejected ("No valid date/hours data found in: " ++ file_name)).
Proof.
  intros E Hrows. unfold extract_data_from_xlsx.
  rewrite (detect_headers_not_empty df hr dc hc E), E.
  replace (len df <=? hr + 1) with false by (symmetry; apply Nat.leb_gt; lia).
  set (data := filter_map (clean_row df dc hc) (data_rows df (hr + 1))).
  assert (Hdata : forall d h,
             In (d, h) data <-> exists r, kept_row df hr dc hc r d h).
  { intros d h. unfold data. rewrite filter_map_In. unfold kept_row. split.
    - intros (r & Hr & Hc). apply data_rows_In in Hr.
      apply clean_row_Some in Hc. exists r. tauto.
    - intros (r & H1 & H2 & Hk). exists r. split.
      + apply data_rows_In. lia.
      + now apply clean_row_Some. }
  split.
  - intros (r & d & h & Hk).
    assert (Hin : In (d, h) data) by (apply Hdata; now exists r).
    destruct data as [|p data'] eqn:Ed; [contradiction|].
    eexists. split; [reflexivity|].
    intros [rd rh rn]. rewrite in_map_iff. simpl. split.
    + intros ([d' h'] & [= <- <- <-] & Hin'). split; [reflexivity|].
      now apply Hdata.
    + intros (-> & Hex). exists (rd, rh). split; [reflexivity|].
      now apply Hdata.
  - intros Hall.
    assert (Hnil : data = []).
    { apply filter_map_none. intros r Hr. apply data_rows_In in Hr.
      apply clean_row_dropped, Hall; lia. }
    now rewrite Hnil.
Qed.

Lemma extract_data_drops_rows_witness :
  exists data,
    @extract_data_from_xlsx plain_pandas (Sheet john_sheet) "john_timesheet.xlsx"
    = Extracted data /\
    forall row,
      In row data <->
      rDeveloper row = extract_developer_name "john_timesheet.xlsx" /\
      exists r, @kept_row plain_pandas john_sheet 0 0 1 r (rDate row) (rHours row).
Proof.
  apply (proj1 (@extract_data_drops_rows plain_pandas john_sheet
                  "john_timesheet.xlsx" 0 0 1 eq_refl ltac:(unfold len; simpl; lia))).
  exists 1, (mkDate 2024 1 5), 8%Q.
  unfold kept_row, len. repeat split; simpl; lia.
Defined.

(** ** BatchProcessor *)

Section BatchProcessor.
Context `{Pandas}.
Variable z : Archive.

(** One turn of the loop appends to exactly one of the two lists. *)
Lemma process_entry_outcome (st : LoopState) (file_name : string) :
  process_entry z st file_name =
  match entry_outcome z file_name with
  | Extracted data =>
      mkLoop (l_data st ++ [data]) (l_errors st) (l_processed st ++ [file_name])
  | Rejected error =>
      mkLoop (l_data st) (l_errors st ++ [error]) (l_processed st)
  end.
Proof.
  unfold process_entry, entry_outcome.
  destruct (zip_open z file_name) as [[exn|file_bytes]|]; reflexivity.
Qed.

(** The loop invariant: after the entries [l], the lists have grown by
    the outcomes of [l], in order, whatever the outcomes were. *)
Lemma process_entries (l : list string) (st : LoopState) :
  let st' := fold_left (process_entry z) l st in
  List.concat (l_data st') =
    (List.concat (l_data st) ++ flat_map (fun n => data_of (entry_outcome z n)) l)%list /\
  l_errors st' =
    (l_errors st ++ flat_map (fun n => errors_of (entry_outcome z n)) l)%list /\
  l_processed st' =
    (l_processed st ++ filter (fun n => is_extracted (entry_outcome z n)) l)%list.
Proof.
  revert st. induction l as [|n l IH]; intros st; simpl.
  - now rewrite !app_nil_r.
  - destruct (IH (process_entry z st n)) as (Hd & He & Hp).
    rewrite Hd, He, Hp, process_entry_outcome.
    destruct (entry_outcome z n) as [data|error]; simpl.
    + rewrite concat_app. simpl. now rewrite app_nil_r, <- !app_assoc.
    + now rewrite <- !app_assoc.
Qed.



End BatchProcessor.


(** ** Aggregator *)

(** *** Insertion sort *)

Section SortFacts.
Context {A : Type} (le : A -> A -> bool).
Hypothesis le_total : forall a b, le a b = true \/ le b a = true.
Hypothesis le_trans : forall a b c, le a b = true -> le b c = true -> le a c = true.

Let R (a b : A) : Prop := le a b = true.

Lemma insert_perm (x : A) (l : list A) : Permutation (insert le x l) (x :: l).
Proof.
  induction l as [|y l IH]; simpl; [reflexivity|].
  destruct (le x y); [reflexivity|].
  rewrite IH. apply perm_swap.
Qed.

Lemma sort_perm (l : list A) : Permutation (sort le l) l.
Proof.
  induction l as [|x l IH]; simpl; [reflexivity|].
  now rewrite insert_perm, IH.
Qed.

Lemma insert_sorted (x : A) (l : list A) :
  StronglySorted R l -> StronglySorted R (insert le x l).
Proof.
  induction l as [|y l IH]; intros Hs; simpl.
  - constructor; constructor.
  - apply StronglySorted_inv in Hs as [Hs Hy].
    destruct (le x y) eqn:Exy.
    + constructor; [constructor; assumption|].
      constructor; [exact Exy|].
      eapply Forall_impl; [|exact Hy]. intros z Hz. exact (le_trans _ _ _ Exy Hz).
    + constructor; [now apply IH|].
      assert (Hyx : R y x) by (destruct (le_total x y); [congruence | assumption]).
      apply Forall_forall. intros z Hz.
      apply (Permutation_in _ (insert_perm x l)) in Hz as [<-|Hz]; [exact Hyx|].
      rewrite Forall_forall in Hy. now apply Hy.
Qed.

Lemma sort_sorted (l : list A) : StronglySorted R (sort le l).
Proof.
  induction l as [|x l IH]; simpl; [constructor | now apply insert_sorted].
Qed.

(** Two sorted lists with the same elements are equal, when the order
    tells the elements apart. *)
Lemma sorted_perm_eq (l l' : list A) :
  (forall a b, In a l -> In b l -> R a b -> R b a -> a = b) ->
  StronglySorted R l -> StronglySorted R l' -> Permutation l l' -> l = l'.
Proof.
  revert l'. induction l as [|x l IH]; intros l' Hanti Hs Hs' Hp.
  - apply Permutation_nil in Hp. now subst.
  - destruct l' as [|y l'].
    + symmetry in Hp. now apply Permutation_nil in Hp.
    + apply StronglySorted_inv in Hs as [Hs Hx].
      apply StronglySorted_inv in Hs' as [Hs' Hy].
      rewrite Forall_forall in Hx, Hy.
      assert (Exy : x = y).
      { assert (Hxin : In x (y :: l')) by (apply (Permutation_in _ Hp); now left).
        assert (Hyin : In y (x :: l))
          by (apply (Permutation_in _ (Permutation_sym Hp)); now left).
        destruct Hxin as [->|Hxin]; [reflexivity|].
        destruct Hyin as [->|Hyin]; [reflexivity|].
        apply Hanti; [now left | now right | now apply Hx | now apply Hy]. }
      subst y. f_equal. apply IH; try assumption.
      * intros a b Ha Hb. apply Hanti; now right.
      * now apply Permutation_cons_inv in Hp.
Qed.

Lemma sort_perm_eq (l l' : list A) :
  (forall a b, In a l -> In b l -> R a b -> R b a -> a = b) ->
  Permutation l l' -> sort le l = sort le l'.
Proof.
  intros Hanti Hp. apply sorted_perm_eq.
  - intros a b Ha Hb. apply Hanti; now apply (Permutation_in _ (sort_perm l)).
  - apply sort_sorted.
  - apply sort_sorted.
  - now rewrite !sort_perm.
Qed.

End SortFacts.

(** *** The orders *)

Section Orders.

Lemma ascii_compare_lt_trans (a b c : ascii) :
  Ascii.compare a b = Lt -> Ascii.compare b c = Lt -> Ascii.compare a c = Lt.
Proof.
  unfold Ascii.compare. rewrite !N.compare_lt_iff. apply N.lt_trans.
Qed.

Lemma ascii_compare_refl (a : ascii) : Ascii.compare a a = Eq.
Proof. unfold Ascii.compare. apply N.compare_refl. Qed.

Lemma string_compare_refl (s : string) : String.compare s s = Eq.
Proof.
  induction s as [|a s IH]; simpl; [reflexivity|].
  now rewrite ascii_compare_refl.
Qed.

Lemma string_compare_lt_trans (s1 s2 s3 : string) :
  String.compare s1 s2 = Lt -> String.compare s2 s3 = Lt ->
  String.compare s1 s3 = Lt.
Proof.
  revert s2 s3. induction s1 as [|a s1 IH]; intros [|b s2] [|c s3]; simpl;
    try discriminate; try reflexivity.
  destruct (Ascii.compare a b) eqn:Eab; try discriminate;
    destruct (Ascii.compare b c) eqn:Ebc; try discriminate; intros H12 H23.
  - apply Ascii.compare_eq_iff in Eab, Ebc. subst.
    rewrite ascii_compare_refl. now apply (IH s2).
  - apply Ascii.compare_eq_iff in Eab. subst. now rewrite Ebc.
  - apply Ascii.compare_eq_iff in Ebc. subst. now rewrite Eab.
  - now rewrite (ascii_compare_lt_trans _ _ _ Eab Ebc).
Qed.

Lemma string_leb_iff (s1 s2 : string) :
  String.leb s1 s2 = true <-> String.compare s1 s2 = Lt \/ s1 = s2.
Proof.
  unfold String.leb. destruct (String.compare s1 s2) eqn:E.
  - apply String.compare_eq_iff in E. tauto.
  - tauto.
  - split; [discriminate|]. intros [Hlt | ->]; [discriminate|].
    now rewrite string_compare_refl in E.
Qed.

Lemma string_leb_trans (s1 s2 s3 : string) :
  String.leb s1 s2 = true -> String.leb s2 s3 = true -> String.leb s1 s3 = true.
Proof.
  rewrite !string_leb_iff. intros [H12 | ->] [H23 | ->]; auto.
  left. eapply string_compare_lt_trans; eassumption.
Qed.

(** [summary_le] in logical form. *)
Lemma summary_le_iff (b1 b2 : MonthlyBucket) :
  summary_le b1 b2 = true <->
  ((bYear b1 < bYear b2)%Z \/
   (bYear b1 = bYear b2 /\
    ((bMonth b1 < bMonth b2)%Z \/
     (bMonth b1 = bMonth b2 /\
      (String.compare (bDeveloper b1) (bDeveloper b2) = Lt \/
       bDeveloper b1 = bDeveloper b2))))).
Proof.
  unfold summary_le.
  rewrite !orb_true_iff, !andb_true_iff, !orb_true_iff, !andb_true_iff.
  rewrite !Z.ltb_lt, !Z.eqb_eq, string_leb_iff. reflexivity.
Qed.

Lemma summary_le_total (b1 b2 : MonthlyBucket) :
  summary_le b1 b2 = true \/ summary_le b2 b1 = true.
Proof.
  rewrite !summary_le_iff.
  destruct (Z.lt_total (bYear b1) (bYear b2)) as [Hy|[Hy|Hy]]; [tauto| |tauto].
  destruct (Z.lt_total (bMonth b1) (bMonth b2)) as [Hm|[Hm|Hm]];
    [tauto| |right; right; split; [auto | tauto]].
  destruct (String.leb_total (bDeveloper b1) (bDeveloper b2)) as [Hd|Hd];
    apply string_leb_iff in Hd.
  - left. right. split; [assumption|]. right. now split.
  - right. right. split; [auto|]. right. split; [auto|assumption].
Qed.

Lemma summary_le_trans (b1 b2 b3 : MonthlyBucket) :
  summary_le b1 b2 = true -> summary_le b2 b3 = true -> summary_le b1 b3 = true.
Proof.
  rewrite !summary_le_iff.
  intros [Hy|[Hy [Hm|[Hm Hd]]]] [Hy'|[Hy' [Hm'|[Hm' Hd']]]];
    try (left; lia); right; (split; [lia|]); try (left; lia).
  right. split; [lia|].
  destruct Hd as [Hd|Hd], Hd' as [Hd'|Hd'].
  - left. eapply string_compare_lt_trans; eassumption.
  - left. now rewrite <- Hd'.
  - left. now rewrite Hd.
  - right. congruence.
Qed.

(** Both ways round, [summary_le] leaves the key no choice. *)
Lemma summary_le_antisym (b1 b2 : MonthlyBucket) :
  summary_le b1 b2 = true -> summary_le b2 b1 = true ->
  bYear b1 = bYear b2 /\ bMonth b1 = bMonth b2 /\ bDeveloper b1 = bDeveloper b2.
Proof.
  rewrite !summary_le_iff.
  intros [Hy|[Hy [Hm|[Hm Hd]]]] [Hy'|[Hy' [Hm'|[Hm' Hd']]]]; try lia.
  repeat split; try assumption.
  destruct Hd as [Hd|Hd]; [|assumption].
  destruct Hd' as [Hd'|Hd']; [|now symmetry].
  pose proof (string_compare_lt_trans _ _ _ Hd Hd') as Hc.
  now rewrite string_compare_refl in Hc.
Qed.

Lemma groupby_le_total (k1 k2 : GroupKey) :
  groupby_le k1 k2 = true \/ groupby_le k2 k1 = true.
Proof.
  destruct k1 as [[d1 y1] m1], k2 as [[d2 y2] m2]. unfold groupby_le.
  rewrite (String.compare_antisym d2 d1).
  destruct (String.compare d1 d2) eqn:E; simpl; auto.
  rewrite !orb_true_iff, !andb_true_iff, !Z.ltb_lt, !Z.eqb_eq, !Z.leb_le. lia.
Qed.

End Orders.

(** *** Grouping and summing *)

Section Grouping.

Lemma key_eqb_eq (k1 k2 : GroupKey) : key_eqb k1 k2 = true <-> k1 = k2.
Proof.
  destruct k1 as [[d1 y1] m1], k2 as [[d2 y2] m2]. unfold key_eqb.
  rewrite !andb_true_iff, String.eqb_eq, !Z.eqb_eq.
  split; [intros [[-> ->] ->]; reflexivity | intros [= -> -> ->]; auto].
Qed.

Lemma key_eqb_refl (k : GroupKey) : key_eqb k k = true.
Proof. now apply key_eqb_eq. Qed.

Lemma unique_In (ks : list GroupKey) (k : GroupKey) :
  In k (unique ks) <-> In k ks.
Proof.
  induction ks as [|k0 ks IH]; simpl; [reflexivity|].
  rewrite filter_In, IH, negb_true_iff. split.
  - intros [->|[Hin _]]; auto.
  - intros [->|Hin]; [now left|].
    destruct (key_eqb k0 k) eqn:E; [left; now apply key_eqb_eq | right; auto].
Qed.

Lemma unique_NoDup (ks : list GroupKey) : NoDup (unique ks).
Proof.
  induction ks as [|k0 ks IH]; simpl; constructor.
  - rewrite filter_In, key_eqb_refl. now intros [_ ?].
  - now apply NoDup_filter.
Qed.

Lemma unique_perm (ks ks' : list GroupKey) :
  Permutation ks ks' -> Permutation (unique ks) (unique ks').
Proof.
  intros Hp. apply NoDup_Permutation; try apply unique_NoDup.
  intros k. rewrite !unique_In. split; apply Permutation_in;
    [assumption | now symmetry].
Qed.

Lemma filter_perm {A : Type} (f : A -> bool) (l l' : list A) :
  Permutation l l' -> Permutation (filter f l) (filter f l').
Proof.
  induction 1 as [|x l l' Hp IH|x y l|l l' l'' H1 IH1 H2 IH2]; simpl.
  - reflexivity.
  - destruct (f x); [now constructor | assumption].
  - destruct (f x), (f y); try reflexivity. apply perm_swap.
  - now transitivity (filter f l').
Qed.

Lemma NoDup_map_inj {A B : Type} (f : A -> B) (l : list A) :
  (forall a b, f a = f b -> a = b) -> NoDup l -> NoDup (map f l).
Proof.
  intros Hinj. induction 1 as [|x l Hnin Hnd IH]; simpl; constructor.
  - rewrite in_map_iff. intros (y & E & Hy). apply Hinj in E. now subst.
  - exact IH.
Qed.

(** Adding two hours to a total gives the same rational, term for
    term, in either order. *)
Lemma Qplus_swap (a x y : Q) : Qplus (Qplus a x) y = Qplus (Qplus a y) x.
Proof.
  destruct a as [an ad], x as [xn xd], y as [yn yd]. unfold Qplus. simpl.
  f_equal.
  - rewrite !Pos2Z.inj_mul. ring.
  - rewrite <- !Pos.mul_assoc. f_equal. apply Pos.mul_comm.
Qed.

Lemma fold_Qplus_perm (l l' : list Q) :
  Permutation l l' -> forall a, fold_left Qplus l a = fold_left Qplus l' a.
Proof.
  induction 1 as [|x l l' Hp IH|x y l|l l' l'' H1 IH1 H2 IH2]; intros a; simpl.
  - reflexivity.
  - apply IH.
  - now rewrite Qplus_swap.
  - now rewrite IH1.
Qed.

(** The exact sum does not depend on the order. *)
Lemma exact_sum_perm (l l' : list Q) :
  Permutation l l' -> exact_sum l = exact_sum l'.
Proof. intros Hp. unfold exact_sum. now apply fold_Qplus_perm. Qed.

Lemma group_keys_NoDup (df : list Row) :
  NoDup (sort groupby_le (unique (map key_of df))).
Proof.
  apply (Permutation_NoDup (Permutation_sym (sort_perm _ _))), unique_NoDup.
Qed.

Lemma group_keys_In (df : list Row) (k : GroupKey) :
  In k (sort groupby_le (unique (map key_of df))) <-> exists r, In r df /\ key_of r = k.
Proof.
  split.
  - intros Hin. apply (Permutation_in _ (sort_perm _ _)) in Hin.
    apply unique_In, in_map_iff in Hin as (r & E & Hr). now exists r.
  - intros (r & Hr & <-).
    apply (Permutation_in _ (Permutation_sym (sort_perm _ _))).
    apply unique_In, in_map. assumption.
Qed.

Lemma group_keys_perm (df df' : list Row) :
  Permutation df df' ->
  Permutation (sort groupby_le (unique (map key_of df)))
              (sort groupby_le (unique (map key_of df'))).
Proof.
  intros Hp. rewrite !sort_perm. apply unique_perm. now apply Permutation_map.
Qed.

Lemma strongly_sorted_strict {A : Type} (R S : A -> A -> Prop) (l : list A) :
  (forall a b, R a b -> a <> b -> S a b) ->
  NoDup l -> StronglySorted R l -> StronglySorted S l.
Proof.
  intros HRS. induction l as [|x l IH]; intros Hnd Hs; [constructor|].
  apply StronglySorted_inv in Hs as [Hs Hx]. inversion Hnd as [|? ? Hnin Hnd']; subst.
  constructor; [now apply IH|].
  rewrite Forall_forall in *. intros y Hy. apply HRS; [now apply Hx|].
  intros ->. contradiction.
Qed.

(** Sorting and then renaming is renaming and then sorting, when the
    renaming keeps the order. *)
Lemma insert_map {A B : Type} (leA : A -> A -> bool) (leB : B -> B -> bool)
  (f : A -> B) (x : A) (l : list A) :
  (forall a b, leB (f a) (f b) = leA a b) ->
  map f (insert leA x l) = insert leB (f x) (map f l).
Proof.
  intros Hf. induction l as [|y l IH]; cbn [insert map]; [reflexivity|].
  rewrite Hf. destruct (leA x y); cbn [map]; [reflexivity | now rewrite IH].
Qed.

Lemma sort_map {A B : Type} (leA : A -> A -> bool) (leB : B -> B -> bool)
  (f : A -> B) (l : list A) :
  (forall a b, leB (f a) (f b) = leA a b) ->
  map f (sort leA l) = sort leB (map f l).
Proof.
  intros Hf. induction l as [|x l IH]; cbn [sort map]; [reflexivity|].
  now rewrite (insert_map leA leB f _ _ Hf), IH.
Qed.

(** *** The summary, whatever the sum *)

Section WithSum.
Variable hsum : list Q -> Q.

Lemma bucket_with_key (df : list Row) (k : GroupKey) :
  (bDeveloper (bucket_with hsum df k), bYear (bucket_with hsum df k),
   bMonth (bucket_with hsum df k)) = k.
Proof. now destruct k as [[d y] m]. Qed.

Lemma bucket_with_inj (df : list Row) (k1 k2 : GroupKey) :
  bucket_with hsum df k1 = bucket_with hsum df k2 -> k1 = k2.
Proof.
  intros E. now rewrite <- (bucket_with_key df k1), E, bucket_with_key.
Qed.

(** The frame before the final sort: one bucket per distinct key. *)
Lemma map_agg_with_groupby (df : list Row) :
  map (agg_with hsum) (groupby df) =
  map (bucket_with hsum df) (sort groupby_le (unique (map key_of df))).
Proof. unfold groupby. now rewrite map_map. Qed.

Lemma summary_with_In (df : list Row) (b : MonthlyBucket) :
  In b (create_monthly_summary_with hsum df) <->
  exists r, In r df /\ b = bucket_with hsum df (key_of r).
Proof.
  unfold create_monthly_summary_with. rewrite map_agg_with_groupby. split.
  - intros Hin. apply (Permutation_in _ (sort_perm _ _)) in Hin.
    apply in_map_iff in Hin as (k & <- & Hk).
    apply group_keys_In in Hk as (r & Hr & <-). now exists r.
  - intros (r & Hr & ->).
    apply (Permutation_in _ (Permutation_sym (sort_perm _ _))).
    apply in_map, group_keys_In. now exists r.
Qed.

Lemma summary_with_NoDup (df : list Row) : NoDup (create_monthly_summary_with hsum df).
Proof.
  unfold create_monthly_summary_with. rewrite map_agg_with_groupby.
  apply (Permutation_NoDup (Permutation_sym (sort_perm _ _))).
  apply NoDup_map_inj; [apply bucket_with_inj | apply group_keys_NoDup].
Qed.

(** Two buckets of one summary that [summary_le] does not tell apart
    are the same bucket. *)
Lemma summary_with_antisym_in (df : list Row) (l : list GroupKey) (b1 b2 : MonthlyBucket) :
  In b1 (map (bucket_with hsum df) l) -> In b2 (map (bucket_with hsum df) l) ->
  summary_le b1 b2 = true -> summary_le b2 b1 = true -> b1 = b2.
Proof.
  rewrite !in_map_iff. intros (k1 & <- & _) (k2 & <- & _) H12 H21.
  destruct (summary_le_antisym _ _ H12 H21) as (Hy & Hm & Hd).
  f_equal. rewrite <- (bucket_with_key df k1), <- (bucket_with_key df k2).
  now rewrite Hy, Hm, Hd.
Qed.

(** Two frames with the same records give the same summary when they
    give every key the same bucket. *)
Lemma summary_with_eq (df df' : list Row) :
  Permutation df df' ->
  (forall k, bucket_with hsum df k = bucket_with hsum df' k) ->
  create_monthly_summary_with hsum df = create_monthly_summary_with hsum df'.
Proof.
  intros Hp Hb. unfold create_monthly_summary_with. rewrite !map_agg_with_groupby.
  apply sort_perm_eq.
  - apply summary_le_total.
  - apply summary_le_trans.
  - apply summary_with_antisym_in.
  - transitivity (map (bucket_with hsum df) (sort groupby_le (unique (map key_of df')))).
    + apply Permutation_map. now apply group_keys_perm.
    + assert (E : forall l, map (bucket_with hsum df) l = map (bucket_with hsum df') l)
        by (intros l; apply map_ext; exact Hb).
      now rewrite E.
Qed.

Lemma bucket_with_rows (df df' : list Row) (k : GroupKey) :
  rows_of df' k = rows_of df k -> bucket_with hsum df k = bucket_with hsum df' k.
Proof. intros E. unfold bucket_with. now rewrite E. Qed.

Lemma bucket_with_perm (df df' : list Row) (k : GroupKey) :
  (forall l l', Permutation l l' -> hsum l = hsum l') ->
  Permutation df df' -> bucket_with hsum df k = bucket_with hsum df' k.
Proof.
  intros Hsum Hp. destruct k as [[d y] m]. unfold bucket_with, agg_with.
  assert (Hf : Permutation (rows_of df (d, y, m)) (rows_of df' (d, y, m)))
    by now apply filter_perm.
  now rewrite (Hsum _ _ (Permutation_map rHours Hf)), (Permutation_length Hf).
Qed.

Lemma summary_with_sorted (df : list Row) :
  StronglySorted summary_before (create_monthly_summary_with hsum df).
Proof.
  assert (Hs : StronglySorted (fun a b => summary_le a b = true)
                 (create_monthly_summary_with hsum df))
    by (apply sort_sorted; [apply summary_le_total | apply summary_le_trans]).
  assert (Hin : forall b, In b (create_monthly_summary_with hsum df) ->
                  exists k, b = bucket_with hsum df k).
  { intros b Hb. apply summary_with_In in Hb as (r & _ & ->). eauto. }
  pose proof (summary_with_NoDup df) as Hnd.
  induction Hs as [|x l Hs IH Hx]; [constructor|].
  inversion Hnd as [|? ? Hnin Hnd']; subst.
  constructor.
  - apply IH; [|assumption]. intros b Hb. apply Hin. now right.
  - rewrite Forall_forall in *. intros y Hy.
    pose proof (Hx y Hy) as Hle. apply summary_le_iff in Hle.
    unfold summary_before.
    destruct Hle as [Hlt|[Ey [Hlt|[Em [Hlt|Ed]]]]]; try tauto.
    exfalso. apply Hnin.
    destruct (Hin x (or_introl eq_refl)) as [k1 ->].
    destruct (Hin y (or_intror Hy)) as [k2 ->].
    replace k1 with k2; [assumption|].
    rewrite <- (bucket_with_key df k1), <- (bucket_with_key df k2).
    now rewrite Ey, Em, Ed.
Qed.

(** The summary with its hours blanked out is the summary made with a
    sum that is always zero. *)
Lemma without_hours_summary (df : list Row) :
  map without_hours (create_monthly_summary_with hsum df) =
  create_monthly_summary_with (fun _ => 0%Q) df.
Proof.
  unfold create_monthly_summary_with.
  rewrite (sort_map summary_le summary_le without_hours) by reflexivity.
  f_equal. rewrite map_map. apply map_ext. now intros [[[d y] m] rs].
Qed.

End WithSum.

Lemma without_hours_perm (hsum : list Q -> Q) (df df' : list Row) :
  Permutation df df' ->
  map without_hours (create_monthly_summary_with hsum df) =
  map without_hours (create_monthly_summary_with hsum df').
Proof.
  intros Hp. rewrite !without_hours_summary. apply summary_with_eq; [assumption|].
  intros k. now apply bucket_with_perm.
Qed.

(** *** The summary with exact sums *)

Lemma bucket_of_key (df : list Row) (k : GroupKey) :
  (bDeveloper (bucket_of df k), bYear (bucket_of df k), bMonth (bucket_of df k)) = k.
Proof. exact (bucket_with_key exact_sum df k). Qed.

Lemma map_agg_groupby (df : list Row) :
  map agg (groupby df) =
  map (bucket_of df) (sort groupby_le (unique (map key_of df))).
Proof. exact (map_agg_with_groupby exact_sum df). Qed.

Lemma summary_In (df : list Row) (b : MonthlyBucket) :
  In b (create_monthly_summary df) <->
  exists r, In r df /\ b = bucket_of df (key_of r).
Proof. exact (summary_with_In exact_sum df b). Qed.

Lemma summary_NoDup (df : list Row) : NoDup (create_monthly_summary df).
Proof. exact (summary_with_NoDup exact_sum df). Qed.

Lemma summary_le_antisym_in (df : list Row) (l : list GroupKey) (b1 b2 : MonthlyBucket) :
  In b1 (map (bucket_of df) l) -> In b2 (map (bucket_of df) l) ->
  summary_le b1 b2 = true -> summary_le b2 b1 = true -> b1 = b2.
Proof. exact (summary_with_antisym_in exact_sum df l b1 b2). Qed.

End Grouping.

(** C8, as stated, fails: the hours of a bucket are added up in the
    order of the records, and the sum of a float64 column rounds.  The
    records of 0.2, 0.7 and 0.1 hours of one developer in one month add up
    to 0.9999999999999999, and in the order 0.1, 0.7, 0.2 to 1.0, with a
    plain sum and with a compensated one. *)
Lemma hours_depend_on_order :
  let a := mkRow (mkDate 2024 1 5) (f64 0.2) "Ann" in
  let b := mkRow (mkDate 2024 1 8) (f64 0.7) "Ann" in
  let c := mkRow (mkDate 2024 1 9) (f64 0.1) "Ann" in
  Permutation [a; b; c] [c; b; a] /\
  map bHours (create_monthly_summary_with f64_sum [a; b; c]) =
    [(9007199254740991 # 9007199254740992)%Q] /\
  map bHours (create_monthly_summary_with f64_sum [c; b; a]) = [1%Q] /\
  map bHours (create_monthly_summary_with f64_kahan_sum [a; b; c]) =
    [(9007199254740991 # 9007199254740992)%Q] /\
  map bHours (create_monthly_summary_with f64_kahan_sum [c; b; a]) = [1%Q] /\
  ~ ((9007199254740991 # 9007199254740992) == 1)%Q.
Proof.
  intros a b c. split; [|repeat split; try (vm_compute; reflexivity)].
  - apply (perm_trans (l' := [b; a; c])); [apply perm_swap|].
    apply (perm_trans (l' := [b; c; a])); [apply perm_skip, perm_swap|].
    apply perm_swap.
  - intros E. vm_compute in E. discriminate E.
Qed.

(** C8, amended: whatever the sum of the library, reordering the
    records changes nothing in the summary but, possibly, the hours: the
    same buckets come in the same order with the same working days; the
    summary is in ascending order of (year, month, developer), strictly,
    with one bucket for each (developer, year, month) that has a record;
    the bucket holds the number of the records of that key and the sum of
    their hours, taken in the order of the records.  So the hours too are
    the same when the reordering keeps the records of each key in their
    order, and when the sum does not depend on the order, as the exact
    one. *)
Theorem create_monthly_summary_order (hsum : list Q -> Q) (df df' : list Row) :
  Permutation df df' ->
  map without_hours (create_monthly_summary_with hsum df) =
  map without_hours (create_monthly_summary_with hsum df') /\
  StronglySorted summary_before (create_monthly_summary_with hsum df) /\
  (forall b,
      In b (create_monthly_summary_with hsum df) <->
      exists r, In r df /\
        bDeveloper b = rDeveloper r /\ bYear b = rYear r /\ bMonth b = rMonth r /\
        bMonthName b = rMonthName r /\ bYearMonth b = rYearMonth r /\
        bHours b = hsum (map rHours (rows_of df (key_of r))) /\
        bWorkingDays b = List.length (rows_of df (key_of r))) /\
  ((forall k, rows_of df' k = rows_of df k) ->
   create_monthly_summary_with hsum df = create_monthly_summary_with hsum df') /\
  ((forall l l', Permutation l l' -> hsum l = hsum l') ->
   create_monthly_summary_with hsum df = create_monthly_summary_with hsum df').
Proof.
  intros Hp. split; [now apply without_hours_perm|].
  split; [apply summary_with_sorted|]. split; [|split].
  - intros b. rewrite summary_with_In. split.
    + intros (r & Hr & ->). exists r. split; [assumption|]. repeat split.
    + intros (r & Hr & Hd & Hy & Hm & Hn & Hym & Hh & Hw). exists r.
      split; [assumption|]. destruct b as [d y m n ym h w]. simpl in *. subst.
      reflexivity.
  - intros Hrows. apply summary_with_eq; [assumption|].
    intros k. apply bucket_with_rows, Hrows.
  - intros Hsum. apply summary_with_eq; [assumption|].
    intros k. now apply bucket_with_perm.
Qed.

Lemma create_monthly_summary_order_witness :
  let r1 := mkRow (mkDate 2024 1 5) 8 "John" in
  let r2 := mkRow (mkDate 2024 2 6) 7.5 "Ann" in
  let r3 := mkRow (mkDate 2024 1 9) 0.5 "John" in
  create_monthly_summary [r1; r2; r3] = create_monthly_summary [r3; r1; r2] /\
  create_monthly_summary [r1; r2; r3] =
    [ mkBucket "John" 2024 1 "January" (2024, 1)%Z (0 + 8 + 0.5) 2;
      mkBucket "Ann" 2024 2 "February" (2024, 2)%Z (0 + 7.5) 1 ] /\
  map without_hours (create_monthly_summary_with f64_sum [r1; r2; r3]) =
  map without_hours (create_monthly_summary_with f64_sum [r3; r1; r2]).
Proof.
  intros r1 r2 r3.
  assert (Hp : Permutation [r1; r2; r3] [r3; r1; r2])
    by (apply Permutation_sym; apply (Permutation_cons_append [r1; r2] r3)).
  split; [|split; [reflexivity|]].
  - exact (proj2 (proj2 (proj2 (proj2
             (create_monthly_summary_order exact_sum [r1; r2; r3] [r3; r1; r2] Hp))))
           exact_sum_perm).
  - exact (proj1 (create_monthly_summary_order f64_sum [r1; r2; r3] [r3; r1; r2] Hp)).
Defined.

(** ** End to end *)

(** C9: the archive with the one file [john_timesheet.xlsx], header
    [Date], [Hours] on row 0 and the rows (2024-01-05, 8) and
    (2024-01-06, 7.5), gives one processed file and no error, two records
    that both carry the developer [John], and the one bucket
    (John, 2024, 1) with 15.5 hours and 2 working days. *)
Theorem scenario_john `{Pandas} :
  let report := process_zip_file (Zip john_archive) in
  processed_files report = ["john_timesheet.xlsx"] /\
  error_messages report = [] /\
  skipped_files report = [] /\
  all_data report =
    [ mkRow (mkDate 2024 1 5) 8 "John"; mkRow (mkDate 2024 1 6) 7.5 "John" ] /\
  Forall (fun r => rDeveloper r = "John") (all_data report) /\
  create_monthly_summary (all_data report) =
    [ mkBucket "John" 2024 1 "January" (2024, 1)%Z 15.5 2 ].
Proof.
  intros report.
  assert (E : all_data report =
              [ mkRow (mkDate 2024 1 5) 8 "John"; mkRow (mkDate 2024 1 6) 7.5 "John" ])
    by reflexivity.
  split; [reflexivity|]. split; [reflexivity|]. split; [reflexivity|].
  split; [exact E|]. rewrite E. split.
  - repeat constructor.
  - reflexivity.
Qed.


(** ** Further properties of the extraction *)

Section ExtractionFacts.
Context `{Pandas}.

Lemma extract_data_inv (file_bytes : ExcelBytes) (file_name : string) (data : list Row) :
  extract_data_from_xlsx file_bytes file_name = Extracted data ->
  exists df hr dc hc,
    file_bytes = Sheet df /\
    detect_headers df = (Some hr, Some dc, Some hc) /\
    data = map (fun '(d, h) => mkRow d h (extract_developer_name file_name))
               (filter_map (clean_row df dc hc) (data_rows df (hr + 1))) /\
    data <> [].
Proof.
  unfold extract_data_from_xlsx. destruct file_bytes as [exn|df]; [discriminate|].
  destruct (df_empty df); [discriminate|].
  destruct (detect_headers df) as [[[hr|] [dc|]] [hc|]] eqn:E; try discriminate.
  destruct (len df <=? hr + 1); [discriminate|].
  destruct (filter_map _ _) as [|p l] eqn:Ef; [discriminate|].
  intros [= <-]. exists df, hr, dc, hc.
  split; [reflexivity|]. split; [exact E|]. rewrite Ef.
  split; [reflexivity | discriminate].
Qed.


Lemma process_zip_file_lists (z : Archive) :
  let xlsx_files := filter is_valid_excel_file (namelist z) in
  let report := process_zip_file (Zip z) in
  processed_files report =
    filter (fun n => is_extracted (entry_outcome z n)) xlsx_files /\
  all_data report = flat_map (fun n => data_of (entry_outcome z n)) xlsx_files /\
  skipped_files report =
    filter (fun f => is_excel_name f && negb (is_valid_excel_file f)) (namelist z).
Proof.
  intros xlsx_files report. unfold report, process_zip_file. fold xlsx_files.
  destruct (process_entries z xlsx_files (mkLoop [] [] [])) as (Hd & He & Hp).
  simpl in Hd, He, Hp.
  destruct xlsx_files as [|n l] eqn:El; [now repeat split|].
  cbn [all_data processed_files skipped_files]. now rewrite Hd, Hp.
Qed.

Lemma entry_outcome_extracted (z : Archive) (n : string) (data : list Row) :
  entry_outcome z n = Extracted data ->
  exists file_bytes, extract_data_from_xlsx file_bytes n = Extracted data.
Proof.
  unfold entry_outcome. destruct (zip_open z n) as [[exn|file_bytes]|]; try discriminate.
  intros E. now exists file_bytes.
Qed.

Lemma extracted_records_of (file_bytes : ExcelBytes) (file_name : string) (data : list Row) :
  extract_data_from_xlsx file_bytes file_name = Extracted data ->
  data <> [] /\
  forall row, In row data ->
    (0 < rHours row)%Q /\ rDeveloper row = extract_developer_name file_name.
Proof.
  intros E. destruct (extract_data_inv _ _ _ E) as (df & hr & dc & hc & -> & Ed & -> & Hne).
  split; [exact Hne|]. intros row Hrow.
  apply in_map_iff in Hrow as ([d h] & <- & Hin). cbn [rHours rDeveloper].
  apply filter_map_In in Hin as (r & Hr & Hc).
  apply clean_row_Some in Hc as (Hd & Hh & Hpos). now split.
Qed.

Lemma report_record_of (z : Archive) (row : Row) :
  let report := process_zip_file (Zip z) in
  In row (all_data report) ->
  (0 < rHours row)%Q /\
  exists n, In n (processed_files report) /\
            rDeveloper row = extract_developer_name n.
Proof.
  cbv zeta. destruct (process_zip_file_lists z) as (Hp & Hd & _).
  intros Hrow. rewrite Hd in Hrow.
  apply in_flat_map in Hrow as (n & Hn & Hrow).
  destruct (entry_outcome z n) as [data|error] eqn:E; [|contradiction].
  cbn [data_of] in Hrow.
  destruct (entry_outcome_extracted z n data E) as (fb & Efb).
  destruct (extracted_records_of fb n data Efb) as (_ & Hall).
  destruct (Hall row Hrow) as (Hpos & Hdev).
  split; [exact Hpos|]. exists n. split; [|exact Hdev].
  rewrite Hp. apply filter_In. split; [assumption|]. now rewrite E.
Qed.

End ExtractionFacts.

(** X1: whatever the bytes, a file that is extracted gives at least one
    record, and each of its records has hours above zero, the developer
    name inferred from the file name, and the date and hours of one row of
    the sheet below the header. *)
Theorem extracted_records `{Pandas}
  (file_bytes : ExcelBytes) (file_name : string) (data : list Row) :
  extract_data_from_xlsx file_bytes file_name = Extracted data ->
  data <> [] /\
  forall row, In row data ->
    (0 < rHours row)%Q /\
    rDeveloper row = extract_developer_name file_name /\
    exists df hr dc hc r,
      file_bytes = Sheet df /\
      detect_headers df = (Some hr, Some dc, Some hc) /\
      hr < r < len df /\
      clean_and_parse_date (iloc df r dc) = Some (rDate row) /\
      to_numeric (iloc df r hc) = Some (rHours row).
Proof.
  intros E. destruct (extract_data_inv _ _ _ E) as (df & hr & dc & hc & -> & Ed & -> & Hne).
  split; [exact Hne|]. intros row Hrow.
  apply in_map_iff in Hrow as ([d h] & <- & Hin). cbn [rHours rDeveloper rDate].
  apply filter_map_In in Hin as (r & Hr & Hc).
  apply data_rows_In in Hr. apply clean_row_Some in Hc as (Hd & Hh & Hpos).
  split; [exact Hpos|]. split; [reflexivity|].
  exists df, hr, dc, hc, r. repeat split; (lia || assumption).
Qed.

Lemma extracted_records_witness :
  [ mkRow (mkDate 2024 1 5) 8 "John"; mkRow (mkDate 2024 1 6) 7.5 "John" ] <> [] /\
  forall row,
    In row [ mkRow (mkDate 2024 1 5) 8 "John"; mkRow (mkDate 2024 1 6) 7.5 "John" ] ->
    (0 < rHours row)%Q /\
    rDeveloper row = extract_developer_name "john_timesheet.xlsx" /\
    exists df hr dc hc r,
      Sheet john_sheet = Sheet df /\
      @detect_headers plain_pandas df = (Some hr, Some dc, Some hc) /\
      hr < r < len df /\
      @clean_and_parse_date plain_pandas (iloc df r dc) = Some (rDate row) /\
      @to_numeric plain_pandas (iloc df r hc) = Some (rHours row).
Proof.
  exact (@extracted_records plain_pandas (Sheet john_sheet) "john_timesheet.xlsx" _ eq_refl).
Defined.

(** X2: in the report of an archive every record has hours above zero and
    the developer name of one of the processed files; the processed files
    are names of the archive that pass the filter and the skipped files
    are names that do not, so no file is both; and the report has no
    record exactly when it has no processed file. *)
Theorem batch_report_records `{Pandas} (z : Archive) :
  let report := process_zip_file (Zip z) in
  (forall row, In row (all_data report) ->
     (0 < rHours row)%Q /\
     exists n, In n (processed_files report) /\
               rDeveloper row = extract_developer_name n) /\
  (forall n, In n (processed_files report) ->
     In n (namelist z) /\ is_valid_excel_file n = true) /\
  (forall n, In n (skipped_files report) ->
     In n (namelist z) /\ is_valid_excel_file n = false /\
     ~ In n (processed_files report)) /\
  (all_data report = [] <-> processed_files report = []).
Proof.
  cbv zeta. pose proof (process_zip_file_lists z) as Hl. cbv zeta in Hl.
  set (report := process_zip_file (Zip z)) in *. destruct Hl as (Hp & Hd & Hs).
  assert (Hproc : forall n, In n (processed_files report) ->
            In n (namelist z) /\ is_valid_excel_file n = true /\
            exists data, entry_outcome z n = Extracted data).
  { intros n Hn. rewrite Hp in Hn. apply filter_In in Hn as [Hn Hx].
    apply filter_In in Hn as [Hn Hv]. repeat split; try assumption.
    destruct (entry_outcome z n) as [data|]; [now exists data | discriminate]. }
  split; [|split; [|split]].
  - exact (report_record_of z).
  - intros n Hn. destruct (Hproc n Hn) as (H1 & H2 & _). now split.
  - intros n Hn. rewrite Hs in Hn. apply filter_In in Hn as [Hn Hx].
    apply andb_true_iff in Hx as [_ Hv]. apply negb_true_iff in Hv.
    repeat split; try assumption.
    intros Hin. destruct (Hproc n Hin) as (_ & Hv' & _). congruence.
  - split.
    + intros Hnil. destruct (processed_files report) as [|n l] eqn:El; [reflexivity|].
      exfalso. destruct (Hproc n (or_introl eq_refl)) as (Hn & Hv & data & E).
      destruct (entry_outcome_extracted z n data E) as (fb & Efb).
      destruct (extracted_records_of fb n data Efb) as (Hne & _).
      destruct data as [|row data']; [now apply Hne|].
      assert (Hin : In row (all_data report)).
      { rewrite Hd. apply in_flat_map. exists n. split.
        - apply filter_In. now split.
        - rewrite E. now left. }
      now rewrite Hnil in Hin.
    + intros Hnil. rewrite Hd.
      destruct (flat_map _ _) as [|row l] eqn:Ef; [reflexivity|].
      exfalso. assert (Hin : In row (flat_map (fun n => data_of (entry_outcome z n))
                                      (filter is_valid_excel_file (namelist z))))
        by (rewrite Ef; now left).
      apply in_flat_map in Hin as (n & Hn & Hrow).
      destruct (entry_outcome z n) as [data|error] eqn:E; [|contradiction].
      assert (Hpn : In n (processed_files report)).
      { rewrite Hp. apply filter_In. split; [assumption|]. now rewrite E. }
      now rewrite Hnil in Hpn.
Qed.


(** ** Further properties of the header search *)

Section HeaderFacts.
Context `{Pandas}.

Lemma fold_left_agree {A B : Type} (f g : A -> B -> A) (l : list B) (a : A) :
  (forall x b, f x b = g x b) -> fold_left f l a = fold_left g l a.
Proof.
  intros Hfg. revert a. induction l as [|b l IH]; intros a; simpl; [reflexivity|].
  now rewrite Hfg, IH.
Qed.

Lemma find_header_agree (df1 df2 : DataFrame) (rs : list nat) :
  (forall r, In r rs -> scan_row df1 r = scan_row df2 r) ->
  find_header df1 rs = find_header df2 rs.
Proof.
  induction rs as [|r rs IH]; intros Hs; simpl; [reflexivity|].
  rewrite (Hs r) by now left. rewrite IH; [reflexivity|].
  intros; apply Hs; now right.
Qed.

Lemma scan_row_first_rows (df : DataFrame) (r : nat) :
  r < Nat.min 10 (len df) -> scan_row (first_rows df) r = scan_row df r.
Proof.
  intros Hr. unfold scan_row. cbn [first_rows columns].
  apply fold_left_agree. intros st c. unfold scan_cell, cell_val.
  assert (Hl : len (first_rows df) = Nat.min 10 (len df))
    by (unfold len, first_rows; cbn [rows]; apply length_firstn).
  rewrite Hl. cbn [first_rows columns].
  replace (Nat.min 10 (len df) <=? r) with false by (symmetry; apply Nat.leb_gt; lia).
  replace (len df <=? r) with false by (symmetry; apply Nat.leb_gt; lia).
  assert (Hi : iloc (mkDataFrame (columns df) (firstn 10 (rows df))) r c = iloc df r c).
  { unfold iloc. cbn [rows]. rewrite nth_firstn.
    now replace (r <? 10) with true by (symmetry; apply Nat.ltb_lt; lia). }
  unfold first_rows in *. now rewrite Hi.
Qed.

End HeaderFacts.

(** X3: the search never looks past the tenth row: cutting the sheet down
    to its first ten rows changes nothing in the result, whatever the rows
    after them hold. *)
Theorem detect_headers_first_rows `{Pandas} (df : DataFrame) :
  detect_headers (first_rows df) = detect_headers df.
Proof.
  unfold detect_headers.
  assert (Hl : len (first_rows df) = Nat.min 10 (len df))
    by (unfold len, first_rows; cbn [rows]; apply length_firstn).
  rewrite Hl, Nat.min_assoc, Nat.min_id.
  apply find_header_agree. intros r Hr. apply in_seq in Hr.
  apply scan_row_first_rows. lia.
Qed.

(** X4: the three rejections of a sheet before any row is read as data:
    a sheet with no row or no column is rejected as empty; a sheet none of
    whose first ten rows has both a date header and an hours header is
    rejected for its columns, even when a later row has them; and a sheet
    whose header is its last row is rejected for having no data row. *)
Theorem extract_data_rejections `{Pandas} (df : DataFrame) (file_name : string) :
  (df_empty df = true ->
   extract_data_from_xlsx (Sheet df) file_name = Rejected ("Empty file: " ++ file_name)) /\
  (df_empty df = false ->
   (forall r, r < 10 -> r < len df -> ~ qualifies df r) ->
   extract_data_from_xlsx (Sheet df) file_name =
   Rejected ("Could not detect date/hours columns in: " ++ file_name)) /\
  (forall hr dc hc,
     detect_headers df = (Some hr, Some dc, Some hc) -> hr + 1 = len df ->
     extract_data_from_xlsx (Sheet df) file_name =
     Rejected ("No data rows found after header in: " ++ file_name)).
Proof.
  split; [|split].
  - intros He. unfold extract_data_from_xlsx. now rewrite He.
  - intros He Hnone. unfold extract_data_from_xlsx. rewrite He.
    assert (E : detect_headers df = (None, None, None)).
    { apply detect_headers_not_found. unfold window. intros r Hr. apply Hnone; lia. }
    now rewrite E.
  - intros hr dc hc E Hlast. unfold extract_data_from_xlsx.
    rewrite (detect_headers_not_empty df hr dc hc E), E.
    now replace (len df <=? hr + 1) with true by (symmetry; apply Nat.leb_le; lia).
Qed.


(** ** Further properties of the entry filter *)

Section FilterFacts.

Lemma lower_app (s t : string) : lower (s ++ t) = lower s ++ lower t.
Proof. induction s as [|c s IH]; simpl; [reflexivity | now rewrite IH]. Qed.

Lemma endswith_inv (suf s : string) :
  endswith suf s = true -> exists pre, s = pre ++ suf.
Proof.
  induction s as [|c s IH]; cbn [endswith]; intros He.
  - rewrite orb_false_r in He. apply String.eqb_eq in He as <-. now exists "".
  - apply orb_true_iff in He as [He|He].
    + apply String.eqb_eq in He as <-. now exists "".
    + destruct (IH He) as [pre ->]. now exists (String c pre).
Qed.

Lemma endswith_app (suf pre : string) : endswith suf (pre ++ suf) = true.
Proof.
  induction pre as [|c pre IH]; cbn [append].
  - destruct suf; cbn [endswith]; now rewrite String.eqb_refl.
  - cbn [endswith]. rewrite IH. apply orb_true_r.
Qed.

(** A text that ends with the separator ends with neither extension. *)
Lemma directory_has_no_extension (t : string) :
  endswith ".xlsx" (t ++ "/") = false /\ endswith ".xls" (t ++ "/") = false.
Proof.
  induction t as [|c t [IH1 IH2]]; [split; reflexivity|].
  cbn [append endswith]. rewrite IH1, IH2, !orb_false_r.
  split; apply String.eqb_neq; intros E; injection E as _ E;
    repeat (destruct t as [|? t]; cbn [append] in E;
            [discriminate E | injection E as _ E]);
    destruct t; discriminate E.
Qed.

Lemma extension_not_directory (filename : string) :
  endswith ".xlsx" (lower filename) || endswith ".xls" (lower filename) = true ->
  endswith "/" filename = false.
Proof.
  intros Hext. destruct (endswith "/" filename) eqn:Ed; [|reflexivity].
  destruct (endswith_inv _ _ Ed) as [t ->].
  rewrite lower_app in Hext. change (lower "/") with "/" in Hext.
  destruct (directory_has_no_extension (lower t)) as [H1 H2].
  rewrite H1, H2 in Hext. discriminate.
Qed.

End FilterFacts.

(** X5: the filter in full: a name is eligible exactly when it does not
    start with [__MACOSX/], has no [._] and no [/.DS_Store] in it, does
    not start with a dot, and ends with [.xlsx] or [.xls] whatever the
    case of the letters.  The last test of the code, on a trailing [/],
    never decides anything: a name with the extension cannot end with the
    separator. *)
Theorem is_valid_excel_file_iff (filename : string) :
  (is_valid_excel_file filename = true <->
   startswith "__MACOSX/" filename = false /\
   contains "._" filename = false /\
   startswith "." filename = false /\
   contains "/.DS_Store" filename = false /\
   (exists pre, lower filename = pre ++ ".xlsx" \/ lower filename = pre ++ ".xls")) /\
  (endswith ".xlsx" (lower filename) || endswith ".xls" (lower filename) = true ->
   endswith "/" filename = false).
Proof.
  split; [|apply extension_not_directory].
  unfold is_valid_excel_file.
  destruct (startswith "__MACOSX/" filename); cbn [orb];
    [split; [discriminate | now intros (? & _)]|].
  destruct (contains "._" filename);
    [split; [discriminate | now intros (_ & ? & _)]|].
  destruct (startswith "." filename); cbn [orb];
    [split; [discriminate | now intros (_ & _ & ? & _)]|].
  destruct (contains "/.DS_Store" filename);
    [split; [discriminate | now intros (_ & _ & _ & ? & _)]|].
  destruct (endswith ".xlsx" (lower filename) || endswith ".xls" (lower filename)) eqn:Hext;
    cbn [negb].
  - rewrite (extension_not_directory filename Hext). split; [|reflexivity].
    intros _. repeat split.
    apply orb_true_iff in Hext as [He|He]; destruct (endswith_inv _ _ He) as [pre E];
      exists pre; auto.
  - split; [discriminate|]. intros (_ & _ & _ & _ & pre & [E|E]);
      rewrite E, endswith_app in Hext; [discriminate|].
    rewrite orb_true_r in Hext. discriminate.
Qed.


(** ** Further properties of the name inference *)

Section NameFacts.

Lemma append_nil_r (s : string) : s ++ "" = s.
Proof. induction s as [|c s IH]; simpl; [reflexivity | now rewrite IH]. Qed.

Lemma split_last_none (sep : ascii) (s : string) :
  has_char sep s = false -> split_last sep s = s.
Proof.
  destruct s as [|c s]; [reflexivity|]. cbn [has_char split_last].
  intros Hn. apply orb_false_iff in Hn as [Hc Hs]. now rewrite Hs, Hc.
Qed.

Lemma split_last_app (sep : ascii) (dir f : string) :
  has_char sep f = false -> split_last sep (dir ++ String sep f) = f.
Proof.
  intros Hf. induction dir as [|c dir IH]; cbn [append split_last].
  - now rewrite Hf, Ascii.eqb_refl.
  - rewrite has_char_app. cbn [has_char]. rewrite Ascii.eqb_refl.
    cbn [orb]. rewrite orb_true_r. exact IH.
Qed.

(** A character that a word lacks and that starts [old]: [replace] and
    [in] go through the word untouched. *)
Lemma remove_all_word (a : ascii) (old' w t : string) :
  has_char a w = false ->
  remove_all (String a old') (w ++ t) = w ++ remove_all (String a old') t.
Proof.
  unfold remove_all. induction w as [|c w IH]; intros Hw; [reflexivity|].
  cbn [has_char] in Hw. apply orb_false_iff in Hw as [Hc Hw].
  cbn [append remove_from startswith].
  rewrite Ascii.eqb_sym, Hc. cbn [andb]. now rewrite IH.
Qed.

Lemma contains_word (a : ascii) (old' w t : string) :
  has_char a w = false ->
  contains (String a old') (w ++ t) = contains (String a old') t.
Proof.
  induction w as [|c w IH]; intros Hw; [reflexivity|].
  cbn [has_char] in Hw. apply orb_false_iff in Hw as [Hc Hw].
  cbn [append contains startswith].
  rewrite Ascii.eqb_sym, Hc. cbn [andb orb]. now apply IH.
Qed.

(** [replace] brings in no character. *)
Lemma remove_from_has_char (c : ascii) (old : string) (k : nat) (s : string) :
  has_char c s = false -> has_char c (remove_from old k s) = false.
Proof.
  revert k. induction s as [|x s IH]; intros k Hs; [reflexivity|].
  cbn [has_char] in Hs. apply orb_false_iff in Hs as [Hx Hs].
  cbn [remove_from]. destruct k as [|k]; [|now apply IH].
  destruct old as [|a old'].
  - cbn [has_char]. now rewrite Hx, IH.
  - destruct (startswith (String a old') (String x s)); [now apply IH|].
    cbn [has_char]. now rewrite Hx, IH.
Qed.

Lemma all_alpha_lacks (c : ascii) (w : string) :
  is_alpha c = false -> all_alpha w = true -> has_char c w = false.
Proof.
  intros Hc. induction w as [|x w IH]; intros Hw; [reflexivity|].
  cbn [all_alpha] in Hw. apply andb_true_iff in Hw as [Hx Hw].
  cbn [has_char]. rewrite (IH Hw), orb_false_r.
  apply Ascii.eqb_neq. intros ->. congruence.
Qed.

Lemma isalpha_all_alpha (w : string) : isalpha w = true -> all_alpha w = true.
Proof. now destruct w. Qed.

Lemma alpha_not_space (c : ascii) : is_alpha c = true -> is_space c = false.
Proof. destruct c as [[] [] [] [] [] [] [] []]; (discriminate || reflexivity). Qed.

(** A text with no blank in it is left alone by [strip]. *)
Lemma strip_no_space (s : string) :
  (forall c, has_char c s = true -> is_space c = false) -> strip s = s.
Proof.
  intros Hs. unfold strip.
  assert (Hl : lstrip s = s).
  { destruct s as [|c s]; [reflexivity|]. cbn [lstrip].
    rewrite (Hs c); [reflexivity|]. cbn [has_char]. now rewrite Ascii.eqb_refl. }
  rewrite Hl. clear Hl. induction s as [|c s IH]; [reflexivity|].
  cbn [rstrip]. rewrite IH.
  - destruct s; [|reflexivity].
    rewrite (Hs c); [reflexivity|]. cbn [has_char]. now rewrite Ascii.eqb_refl.
  - intros x Hx. apply Hs. cbn [has_char]. now rewrite Hx, orb_true_r.
Qed.

Lemma has_char_alpha (c : ascii) (w : string) :
  all_alpha w = true -> has_char c w = true -> is_alpha c = true.
Proof.
  intros Hw Hc. destruct (is_alpha c) eqn:E; [reflexivity|].
  now rewrite (all_alpha_lacks c w E Hw) in Hc.
Qed.

Lemma strip_alpha (w : string) : all_alpha w = true -> strip w = w.
Proof.
  intros Hw. apply strip_no_space. intros c Hc.
  apply alpha_not_space. now apply (has_char_alpha c w).
Qed.

Lemma title_from_true_alpha (s : string) :
  all_alpha s = true -> title_from true s = lower s.
Proof.
  induction s as [|c s IH]; intros Hs; [reflexivity|].
  cbn [all_alpha] in Hs. apply andb_true_iff in Hs as [Hc Hs].
  cbn [title_from lower]. now rewrite Hc, IH.
Qed.

Lemma title_alpha (w : string) : all_alpha w = true -> title w = capitalize w.
Proof.
  destruct w as [|c w]; [reflexivity|]. cbn [all_alpha]. intros Hw.
  apply andb_true_iff in Hw as [Hc Hw].
  unfold title. cbn [title_from capitalize]. now rewrite Hc, title_from_true_alpha.
Qed.

(** The name of a file whose base name is a word, alone or followed by an
    underscore and more text with no marker in it. *)
Lemma name_from_base (filename w t : string) :
  base_name_of filename = w ++ t -> isalpha w = true ->
  t = "" \/ (exists t', t = String "_" t') -> has_char "*" t = false ->
  extract_developer_name filename = capitalize w.
Proof.
  intros Hb Hw Ht Hstar. pose proof (isalpha_all_alpha w Hw) as Ha.
  unfold extract_developer_name. rewrite Hb.
  rewrite has_char_app, Hstar, (all_alpha_lacks "*" w eq_refl Ha). cbn [orb].
  assert (Hs : split_first "_" (w ++ t) = w).
  { apply split_first_before. split; [now apply all_alpha_lacks|].
    destruct Ht as [->|[t' ->]]; [left; apply append_nil_r | right; now exists t']. }
  rewrite Hs, (strip_alpha w Ha).
  rewrite (split_first_none " " w (all_alpha_lacks " " w eq_refl Ha)), (strip_alpha w Ha).
  rewrite Hw. destruct w; [discriminate|]. cbn [String.eqb negb andb].
  now apply title_alpha.
Qed.

Lemma to_upper_lower (c : ascii) : to_upper (to_lower c) = to_upper c.
Proof. destruct c as [[] [] [] [] [] [] [] []]; reflexivity. Qed.

Lemma to_lower_lower (c : ascii) : to_lower (to_lower c) = to_lower c.
Proof. destruct c as [[] [] [] [] [] [] [] []]; reflexivity. Qed.

Lemma lower_lower (s : string) : lower (lower s) = lower s.
Proof.
  induction s as [|c s IH]; simpl; [reflexivity|]. now rewrite to_lower_lower, IH.
Qed.

Lemma capitalize_lower (w : string) : capitalize (lower w) = capitalize w.
Proof.
  destruct w as [|c w]; [reflexivity|]. cbn [lower capitalize].
  now rewrite to_upper_lower, lower_lower.
Qed.

End NameFacts.

(** X6: the directories of an entry do not count: a name inside
    directories gives the developer of the name alone. *)
Theorem extract_developer_name_path (dir f : string) :
  has_char "/" f = false ->
  extract_developer_name (dir ++ String "/" f) = extract_developer_name f.
Proof.
  intros Hf. unfold extract_developer_name, base_name_of.
  now rewrite (split_last_app "/" dir f Hf), (split_last_none "/" f Hf).
Qed.

Lemma extract_developer_name_path_witness :
  extract_developer_name ("2024/march" ++ String "/" "john_doe_timesheet.xlsx")
  = extract_developer_name "john_doe_timesheet.xlsx".
Proof. exact (extract_developer_name_path "2024/march" "john_doe_timesheet.xlsx" eq_refl). Defined.

(** X7: a name that starts with an alphabetic word followed by an
    underscore, with no marker and no directory after it, gives that word
    with its first letter in upper case and the others in lower case; so
    does a name that starts with the word followed by the marker; and the
    case of the letters of the word in the file name does not matter. *)
Theorem extract_developer_name_word (w rest : string) :
  isalpha w = true -> has_char "/" rest = false ->
  (has_char "*" rest = false ->
   extract_developer_name (w ++ String "_" rest) = capitalize w) /\
  extract_developer_name (w ++ String "*" rest) = capitalize w /\
  capitalize w = capitalize (lower w).
Proof.
  intros Hw Hslash. pose proof (isalpha_all_alpha w Hw) as Ha.
  assert (Hbase : forall sep, is_alpha sep = false -> Ascii.eqb sep "/" = false ->
            base_name_of (w ++ String sep rest) =
            w ++ remove_all ".xls" (remove_all ".xlsx" (String sep rest))).
  { intros sep Hsep Hne. unfold base_name_of.
    rewrite split_last_none.
    - rewrite (remove_all_word "." "xlsx" w _ (all_alpha_lacks "." w eq_refl Ha)).
      now rewrite (remove_all_word "." "xls" w _ (all_alpha_lacks "." w eq_refl Ha)).
    - rewrite has_char_app, (all_alpha_lacks "/" w eq_refl Ha). cbn [has_char orb].
      now rewrite Hne, Hslash. }
  split; [|split].
  - intros Hstar. apply (name_from_base _ w _ (Hbase "_"%char eq_refl eq_refl) Hw).
    + right. exists (remove_all ".xls" (remove_all ".xlsx" rest)). reflexivity.
    + apply remove_from_has_char, remove_from_has_char. cbn [has_char].
      now rewrite Hstar.
  - unfold extract_developer_name. rewrite (Hbase "*"%char eq_refl eq_refl).
    change (remove_all ".xls" (remove_all ".xlsx" (String "*" rest)))
      with (String "*" (remove_all ".xls" (remove_all ".xlsx" rest))).
    rewrite has_char_app. cbn [has_char]. rewrite Ascii.eqb_refl. cbn [orb].
    rewrite orb_true_r.
    rewrite (split_first_app "*" w _ (all_alpha_lacks "*" w eq_refl Ha)).
    rewrite (strip_alpha w Ha). now apply title_alpha.
  - symmetry. apply capitalize_lower.
Qed.

Lemma extract_developer_name_word_witness :
  (has_char "*" "doe_timesheet.xlsx" = false ->
   extract_developer_name ("JOHN" ++ String "_" "doe_timesheet.xlsx") = capitalize "JOHN") /\
  extract_developer_name ("JOHN" ++ String "*" "doe_timesheet.xlsx") = capitalize "JOHN" /\
  capitalize "JOHN" = capitalize (lower "JOHN").
Proof. exact (extract_developer_name_word "JOHN" "doe_timesheet.xlsx" eq_refl eq_refl). Defined.


Lemma is_valid_excel_file_from (filename : string) :
  startswith "__MACOSX/" filename = false ->
  contains "._" filename = false ->
  startswith "." filename = false ->
  contains "/.DS_Store" filename = false ->
  endswith ".xlsx" (lower filename) = true ->
  is_valid_excel_file filename = true.
Proof.
  intros H1 H2 H3 H4 H5. unfold is_valid_excel_file.
  rewrite H1, H2, H3, H4, H5. cbn [orb negb].
  rewrite extension_not_directory; [reflexivity|]. now rewrite H5.
Qed.

Lemma isalpha_head (w : string) :
  isalpha w = true -> exists c w', w = String c w' /\ is_alpha c = true.
Proof.
  destruct w as [|c w']; [discriminate|]. cbn [isalpha all_alpha].
  intros Hw. apply andb_true_iff in Hw as [Hc _]. now exists c, w'.
Qed.

Section ExtensionCase.
Variable w : string.
Hypothesis Hw : isalpha w = true.

Let Ha : all_alpha w = true := isalpha_all_alpha w Hw.

Lemma word_upper_extension_valid : is_valid_excel_file (w ++ ".XLSX") = true.
Proof.
  apply is_valid_excel_file_from.
  - destruct (isalpha_head w Hw) as (c & w' & -> & Hc). cbn [append startswith].
    destruct (Ascii.eqb_spec "_" c) as [<-|]; [discriminate | reflexivity].
  - now rewrite (contains_word "." "_" w _ (all_alpha_lacks "." w eq_refl Ha)).
  - destruct (isalpha_head w Hw) as (c & w' & -> & Hc). cbn [append startswith].
    destruct (Ascii.eqb_spec "." c) as [<-|]; [discriminate | reflexivity].
  - now rewrite (contains_word "/" ".DS_Store" w _ (all_alpha_lacks "/" w eq_refl Ha)).
  - rewrite lower_app. change (lower ".XLSX") with ".xlsx".
    now rewrite endswith_app.
Qed.

Lemma word_lower_extension_valid : is_valid_excel_file (w ++ ".xlsx") = true.
Proof.
  apply is_valid_excel_file_from.
  - destruct (isalpha_head w Hw) as (c & w' & -> & Hc). cbn [append startswith].
    destruct (Ascii.eqb_spec "_" c) as [<-|]; [discriminate | reflexivity].
  - now rewrite (contains_word "." "_" w _ (all_alpha_lacks "." w eq_refl Ha)).
  - destruct (isalpha_head w Hw) as (c & w' & -> & Hc). cbn [append startswith].
    destruct (Ascii.eqb_spec "." c) as [<-|]; [discriminate | reflexivity].
  - now rewrite (contains_word "/" ".DS_Store" w _ (all_alpha_lacks "/" w eq_refl Ha)).
  - rewrite lower_app. change (lower ".xlsx") with ".xlsx".
    now rewrite endswith_app.
Qed.

Lemma word_upper_extension_name : extract_developer_name (w ++ ".XLSX") = "Unknown".
Proof.
  assert (Hno : forall c, is_alpha c = false -> has_char c ".XLSX" = false ->
                          has_char c (w ++ ".XLSX") = false).
  { intros c Hc Hx. now rewrite has_char_app, (all_alpha_lacks c w Hc Ha), Hx. }
  assert (Hb : base_name_of (w ++ ".XLSX") = w ++ ".XLSX").
  { unfold base_name_of. rewrite (split_last_none "/" _ (Hno "/"%char eq_refl eq_refl)).
    rewrite (remove_all_word "." "xlsx" w _ (all_alpha_lacks "." w eq_refl Ha)).
    change (remove_all ".xlsx" ".XLSX") with ".XLSX".
    now rewrite (remove_all_word "." "xls" w _ (all_alpha_lacks "." w eq_refl Ha)). }
  assert (Hs : strip (w ++ ".XLSX") = w ++ ".XLSX").
  { apply strip_no_space. intros c Hc. rewrite has_char_app in Hc.
    apply orb_true_iff in Hc as [Hc|Hc].
    - apply alpha_not_space. now apply (has_char_alpha c w).
    - cbn [has_char] in Hc. rewrite orb_false_r in Hc.
      repeat (apply orb_true_iff in Hc as [Hc|Hc];
              [apply Ascii.eqb_eq in Hc as <-; reflexivity|]).
      apply Ascii.eqb_eq in Hc as <-. reflexivity. }
  unfold extract_developer_name. rewrite Hb.
  rewrite (Hno "*"%char eq_refl eq_refl).
  rewrite (split_first_none "_" _ (Hno "_"%char eq_refl eq_refl)), Hs.
  rewrite (split_first_none " " _ (Hno " "%char eq_refl eq_refl)), Hs.
  assert (Hna : isalpha (w ++ ".XLSX") = false).
  { assert (Hall : forall s, all_alpha (s ++ ".XLSX") = false).
    { intros s. induction s as [|x s IH]; [reflexivity|].
      cbn [append all_alpha]. rewrite IH. apply andb_false_r. }
    destruct (isalpha_head w Hw) as (c & w' & -> & _). cbn [append isalpha].
    apply (Hall (String c w')). }
  now rewrite Hna, andb_false_r.
Qed.

Lemma word_lower_extension_name : extract_developer_name (w ++ ".xlsx") = capitalize w.
Proof.
  apply (name_from_base _ w ""); auto.
  unfold base_name_of. rewrite split_last_none.
  - rewrite (remove_all_word "." "xlsx" w _ (all_alpha_lacks "." w eq_refl Ha)).
    change (remove_all ".xlsx" ".xlsx") with "".
    now rewrite (remove_all_word "." "xls" w _ (all_alpha_lacks "." w eq_refl Ha)).
  - now rewrite has_char_app, (all_alpha_lacks "/" w eq_refl Ha).
Qed.

End ExtensionCase.

(** X8: the extension texts are taken off a name in lower case only,
    while the filter accepts them in any case: for an alphabetic word [w]
    the entry [w.XLSX] is eligible and its developer is ["Unknown"],
    where [w.xlsx] gives the word capitalized. *)
Theorem upper_case_extension_unknown (w : string) :
  isalpha w = true ->
  is_valid_excel_file (w ++ ".XLSX") = true /\
  extract_developer_name (w ++ ".XLSX") = "Unknown" /\
  is_valid_excel_file (w ++ ".xlsx") = true /\
  extract_developer_name (w ++ ".xlsx") = capitalize w.
Proof.
  intros Hw. repeat split.
  - now apply word_upper_extension_valid.
  - now apply word_upper_extension_name.
  - now apply word_lower_extension_valid.
  - now apply word_lower_extension_name.
Qed.

Lemma upper_case_extension_unknown_witness :
  is_valid_excel_file ("John" ++ ".XLSX") = true /\
  extract_developer_name ("John" ++ ".XLSX") = "Unknown" /\
  is_valid_excel_file ("John" ++ ".xlsx") = true /\
  extract_developer_name ("John" ++ ".xlsx") = capitalize "John".
Proof. exact (upper_case_extension_unknown "John" eq_refl). Defined.


(** ** Further properties of the summary *)

Section SummaryFacts.

Lemma filter_split_disjoint {A : Type} (p q : A -> bool) (l : list A) :
  (forall x, p x = true -> q x = false) ->
  Permutation (filter (fun x => p x || q x) l) (filter p l ++ filter q l).
Proof.
  intros Hpq. induction l as [|x l IH]; cbn [filter]; [reflexivity|].
  destruct (p x) eqn:Px; cbn [orb].
  - rewrite (Hpq x Px). cbn [app]. now constructor.
  - destruct (q x); [|exact IH].
    now apply Permutation_cons_app.
Qed.

(** The rows of distinct keys, key after key, are the rows that have one
    of the keys, in another order. *)
Lemma rows_of_keys (df : list Row) (ks : list GroupKey) :
  NoDup ks ->
  Permutation (flat_map (rows_of df) ks) (filter (key_in ks) df).
Proof.
  induction 1 as [|k ks Hnin Hnd IH]; cbn [flat_map].
  - unfold key_in. cbn [existsb]. induction df; cbn [filter]; auto.
  - rewrite IH. symmetry.
    apply (filter_split_disjoint (fun r => key_eqb k (key_of r)) (key_in ks)).
    intros r Hk. apply key_eqb_eq in Hk as ->.
    unfold key_in. destruct (existsb _ ks) eqn:E; [|reflexivity].
    apply existsb_exists in E as (k' & Hin & Hk'). apply key_eqb_eq in Hk' as ->.
    contradiction.
Qed.

Lemma rows_of_all_keys (df : list Row) :
  Permutation (flat_map (rows_of df) (sort groupby_le (unique (map key_of df)))) df.
Proof.
  rewrite rows_of_keys by apply group_keys_NoDup.
  replace (filter _ df) with df; [reflexivity|].
  symmetry. apply forallb_filter_id. apply forallb_forall. intros r Hr.
  apply existsb_exists. exists (key_of r). split; [|apply key_eqb_refl].
  apply group_keys_In. now exists r.
Qed.

Lemma fold_add_list_sum (l : list nat) (a : nat) :
  fold_left Nat.add l a = a + list_sum l.
Proof.
  revert a. induction l as [|x l IH]; intros a; simpl; [lia|].
  rewrite IH. lia.
Qed.

Lemma bucket_of_fields (df : list Row) (k : GroupKey) :
  bHours (bucket_of df k) = sum_hours (rows_of df k) /\
  bWorkingDays (bucket_of df k) = List.length (rows_of df k).
Proof. now destruct k as [[d y] m]. Qed.

Lemma summary_days_keys (hsum : list Q -> Q) (df : list Row) (ks : list GroupKey) :
  list_sum (map bWorkingDays (map (bucket_with hsum df) ks)) =
  List.length (flat_map (rows_of df) ks).
Proof.
  induction ks as [|k ks IH]; cbn [map flat_map]; [reflexivity|].
  rewrite length_app, <- IH. now destruct k as [[d y] m].
Qed.

Lemma filter_filter_impl {A : Type} (f g : A -> bool) (l : list A) :
  (forall x, f x = true -> g x = true) ->
  filter f (filter g l) = filter f l.
Proof.
  intros Hfg. induction l as [|x l IH]; cbn [filter]; [reflexivity|].
  destruct (g x) eqn:Gx; cbn [filter]; [now rewrite IH|].
  destruct (f x) eqn:Fx; [|exact IH]. rewrite (Hfg x Fx) in Gx. discriminate.
Qed.

Lemma rows_of_select (selected : list string) (df : list Row) (k : GroupKey) :
  isin selected (fst (fst k)) = true ->
  rows_of (select_rows selected df) k = rows_of df k.
Proof.
  intros Hk. unfold rows_of, select_rows. apply filter_filter_impl.
  intros r Hr. apply key_eqb_eq in Hr. subst k. exact Hk.
Qed.

Lemma bucket_of_select (selected : list string) (df : list Row) (k : GroupKey) :
  isin selected (fst (fst k)) = true ->
  bucket_of (select_rows selected df) k = bucket_of df k.
Proof.
  intros Hk. unfold bucket_of. now rewrite rows_of_select.
Qed.

Lemma bucket_of_developer (df : list Row) (k : GroupKey) :
  bDeveloper (bucket_of df k) = fst (fst k).
Proof. now destruct k as [[d y] m]. Qed.

Lemma strongly_sorted_filter {A : Type} (R : A -> A -> Prop) (p : A -> bool) (l : list A) :
  StronglySorted R l -> StronglySorted R (filter p l).
Proof.
  induction 1 as [|x l Hs IH Hx]; cbn [filter]; [constructor|].
  destruct (p x); [|exact IH]. constructor; [exact IH|].
  rewrite Forall_forall in *. intros y Hy. apply filter_In in Hy as [Hy _]. auto.
Qed.

Lemma summary_le_sorted (df : list Row) :
  StronglySorted (fun a b => summary_le a b = true) (create_monthly_summary df).
Proof. apply sort_sorted; [apply summary_le_total | apply summary_le_trans]. Qed.

End SummaryFacts.

(** X9: the summary loses no record and counts none twice: the working
    days of its buckets add up to the number of the records, whatever the
    sum of the hours is. *)
Theorem create_monthly_summary_totals (hsum : list Q -> Q) (df : list Row) :
  summary_days (create_monthly_summary_with hsum df) = List.length df /\
  summary_days (create_monthly_summary df) = List.length df.
Proof.
  assert (Hd : forall f,
            summary_days (create_monthly_summary_with f df) = List.length df).
  { intros f. unfold summary_days, create_monthly_summary_with.
    rewrite map_agg_with_groupby.
    set (ks := sort groupby_le (unique (map key_of df))).
    pose proof (sort_perm summary_le (map (bucket_with f df) ks)) as Hp.
    rewrite fold_add_list_sum. cbn [Nat.add].
    rewrite (Permutation_list_sum (Permutation_map bWorkingDays Hp)).
    rewrite summary_days_keys. apply Permutation_length, rows_of_all_keys. }
  split; [apply Hd | exact (Hd exact_sum)].
Qed.

(** X10: choosing developers before or after the summary is the same:
    the summary of the records of the chosen developers is the summary of
    all the records cut down to the buckets of the chosen developers, as
    the two branches of the filter in [main] compute it. *)
Theorem select_summary_commutes (selected : list string) (df : list Row) :
  select_summary selected (create_monthly_summary df) =
  create_monthly_summary (select_rows selected df).
Proof.
  apply (sorted_perm_eq summary_le).
  - intros a b Ha Hb. unfold select_summary in Ha, Hb.
    apply filter_In in Ha as [Ha _]. apply filter_In in Hb as [Hb _].
    unfold create_monthly_summary in Ha, Hb. rewrite map_agg_groupby in Ha, Hb.
    apply (Permutation_in _ (sort_perm _ _)) in Ha, Hb.
    intros H1 H2. exact (summary_le_antisym_in df _ a b Ha Hb H1 H2).
  - apply strongly_sorted_filter, summary_le_sorted.
  - apply summary_le_sorted.
  - apply NoDup_Permutation.
    + apply NoDup_filter, summary_NoDup.
    + apply summary_NoDup.
    + intros b. unfold select_summary. rewrite filter_In, !summary_In. split.
      * intros ((r & Hr & ->) & Hsel). rewrite bucket_of_developer in Hsel.
        exists r. split.
        -- apply filter_In. now split.
        -- symmetry. now apply bucket_of_select.
      * intros (r & Hr & ->). apply filter_In in Hr as [Hr Hsel].
        assert (Hk : isin selected (fst (fst (key_of r))) = true) by exact Hsel.
        rewrite (bucket_of_select selected df _ Hk). split.
        -- now exists r.
        -- now rewrite bucket_of_developer.
Qed.

(** ** Blanks around a date *)

Section BlankFacts.

Lemma lstrip_all_space (s : string) : all_space s = true -> lstrip s = "".
Proof.
  induction s as [|c s IH]; cbn [all_space lstrip]; [reflexivity|].
  intros Hs. apply andb_true_iff in Hs as [-> Hs]. now apply IH.
Qed.

Lemma rstrip_all_space (s : string) : all_space s = true -> rstrip s = "".
Proof.
  induction s as [|c s IH]; cbn [all_space rstrip]; [reflexivity|].
  intros Hs. apply andb_true_iff in Hs as [-> Hs]. now rewrite IH.
Qed.

Lemma lstrip_app_space (pre s : string) :
  all_space pre = true -> lstrip (pre ++ s) = lstrip s.
Proof.
  induction pre as [|c pre IH]; cbn [all_space append lstrip]; [reflexivity|].
  intros Hs. apply andb_true_iff in Hs as [-> Hs]. now apply IH.
Qed.

Lemma rstrip_app_space (s post : string) :
  all_space post = true -> rstrip (s ++ post) = rstrip s.
Proof.
  intros Hs. induction s as [|c s IH]; cbn [append rstrip].
  - now apply rstrip_all_space.
  - now rewrite IH.
Qed.

Lemma strip_app_space (s post : string) :
  all_space post = true -> strip (s ++ post) = strip s.
Proof.
  intros Hs. unfold strip. induction s as [|c s IH]; cbn [append lstrip].
  - now rewrite (lstrip_all_space post Hs).
  - destruct (is_space c); [exact IH|].
    apply (rstrip_app_space (String c s) post Hs).
Qed.

Lemma strip_blanks (pre s post : string) :
  all_space pre = true -> all_space post = true ->
  strip (pre ++ s ++ post) = strip s.
Proof.
  intros Hpre Hpost. unfold strip at 1. rewrite (lstrip_app_space pre _ Hpre).
  now apply strip_app_space.
Qed.

End BlankFacts.

(** X11: blanks around the text of a date cell do not matter: the cell
    is normalized as the same text without them. *)
Theorem clean_and_parse_date_blanks `{Pandas} (pre s post : string) :
  all_space pre = true -> all_space post = true ->
  clean_and_parse_date (CText (pre ++ s ++ post)) = clean_and_parse_date (CText s).
Proof.
  intros Hpre Hpost. unfold clean_and_parse_date. cbn [isna str].
  now rewrite (strip_blanks pre s post Hpre Hpost).
Qed.

Lemma clean_and_parse_date_blanks_witness :
  @clean_and_parse_date plain_pandas (CText ("  " ++ "05/01/2024" ++ " ")) =
  @clean_and_parse_date plain_pandas (CText "05/01/2024").
Proof.
  exact (@clean_and_parse_date_blanks plain_pandas "  " "05/01/2024" " " eq_refl eq_refl).
Defined.

(** ** A date followed by more text *)





Section DateAndMore.
Variables y m d : Z.
Hypothesis Hv : valid_date (mkDate y m d) = true.
Variable rest : string.
Hypothesis Hrest : rest <> "".

Let Hy : (0 <= y <= 9999)%Z := proj1 (valid_date_ranges y m d Hv).
Let Hm : (1 <= m <= 12)%Z := proj1 (proj2 (valid_date_ranges y m d Hv)).
Let Hd : (1 <= d <= 31)%Z := proj2 (proj2 (valid_date_ranges y m d Hv)).




End DateAndMore.



(** ** From the archive to the summary *)

Section PipelineFacts.

Lemma fold_Qplus_pos (l : list Q) (a : Q) :
  (0 < a)%Q -> (forall x, In x l -> (0 < x)%Q) -> (0 < fold_left Qplus l a)%Q.
Proof.
  revert a. induction l as [|x l IH]; intros a Ha Hl; cbn [fold_left]; [exact Ha|].
  apply IH; [|intros x' Hx'; apply Hl; now right].
  rewrite <- (Qplus_0_l 0). apply Qplus_lt_le_compat; [exact Ha|].
  apply Qlt_le_weak, Hl. now left.
Qed.

Lemma sum_hours_pos (g : list Row) :
  g <> [] -> (forall r, In r g -> (0 < rHours r)%Q) -> (0 < sum_hours g)%Q.
Proof.
  intros Hne Hg. destruct g as [|r g]; [contradiction|].
  unfold sum_hours. cbn [map fold_left]. apply fold_Qplus_pos.
  - rewrite Qplus_0_l. apply Hg. now left.
  - intros x Hx. apply in_map_iff in Hx as (r' & <- & Hr'). apply Hg. now right.
Qed.

Lemma rows_of_own (df : list Row) (r : Row) :
  In r df -> In r (rows_of df (key_of r)).
Proof. intros Hr. apply filter_In. split; [exact Hr | apply key_eqb_refl]. Qed.

Lemma length_append (s t : string) :
  String.length (s ++ t) = String.length s + String.length t.
Proof. induction s as [|c s IH]; cbn [append String.length]; [reflexivity | now rewrite IH]. Qed.

End PipelineFacts.

(** X13: the summary of the records of a report: every bucket has hours
    above zero and at least one working day, and its developer is the
    name inferred from one of the processed files. *)
Theorem report_summary_buckets `{Pandas} (z : Archive) (b : MonthlyBucket) :
  In b (create_monthly_summary (all_data (process_zip_file (Zip z)))) ->
  (0 < bHours b)%Q /\ 1 <= bWorkingDays b /\
  exists n, In n (processed_files (process_zip_file (Zip z))) /\
            bDeveloper b = extract_developer_name n.
Proof.
  set (report := process_zip_file (Zip z)). set (df := all_data report).
  intros Hb. apply summary_In in Hb as (r & Hr & ->).
  destruct (bucket_of_fields df (key_of r)) as [-> ->].
  pose proof (rows_of_own df r Hr) as Hown.
  split; [|split].
  - apply sum_hours_pos.
    + intros E. now rewrite E in Hown.
    + intros r' Hr'. apply filter_In in Hr' as [Hr' _].
      exact (proj1 (report_record_of z r' Hr')).
  - destruct (rows_of df (key_of r)); [contradiction | cbn [List.length]; lia].
  - rewrite bucket_of_developer.
    exact (proj2 (report_record_of z r Hr)).
Qed.

Lemma report_summary_buckets_witness :
  (0 < 15.5)%Q /\ 1 <= 2 /\
  exists n, In n (processed_files (@process_zip_file plain_pandas (Zip john_archive))) /\
            "John" = extract_developer_name n.
Proof.
  exact (@report_summary_buckets plain_pandas john_archive
           (mkBucket "John" 2024 1 "January" (2024, 1)%Z 15.5 2) (or_introl eq_refl)).
Defined.

(** X14: the list of skipped files is made with the extension in lower
    case, while the filter takes it in any case: a name that ends with
    [.XLSX] or [.XLS] is never listed as skipped, also when the filter
    rejects it, as it does for the sidecar [._a.XLSX]. *)
Theorem upper_case_never_skipped `{Pandas} (z : Archive) (pre : string) :
  ~ In (pre ++ ".XLSX") (skipped_files (process_zip_file (Zip z))) /\
  ~ In (pre ++ ".XLS") (skipped_files (process_zip_file (Zip z))) /\
  is_valid_excel_file ("._" ++ pre ++ ".XLSX") = false.
Proof.
  assert (Hx : forall s, is_excel_name (s ++ ".XLSX") = false).
  { intros s. unfold is_excel_name.
    induction s as [|c s IH]; [reflexivity|].
    cbn [append endswith]. apply orb_false_iff in IH as [-> ->].
    rewrite !orb_false_r. apply orb_false_iff.
    split; apply String.eqb_neq; intros E;
      (destruct s as [|c' s]; [discriminate E|]);
      apply (f_equal String.length) in E;
      cbn [append String.length] in E; rewrite length_append in E;
      cbn [String.length] in E; lia. }
  assert (Hs : forall s, is_excel_name (s ++ ".XLS") = false).
  { intros s. unfold is_excel_name.
    induction s as [|c s IH]; [reflexivity|].
    cbn [append endswith]. apply orb_false_iff in IH as [-> ->].
    rewrite !orb_false_r. apply orb_false_iff.
    split; apply String.eqb_neq; intros E;
      (destruct s as [|c' s]; [discriminate E|]);
      apply (f_equal String.length) in E;
      cbn [append String.length] in E; rewrite length_append in E;
      cbn [String.length] in E; lia. }
  destruct (process_zip_file_lists z) as (_ & _ & Hsk).
  split; [|split].
  - rewrite Hsk. intros Hin. apply filter_In in Hin as [_ Hin].
    now rewrite Hx in Hin.
  - rewrite Hsk. intros Hin. apply filter_In in Hin as [_ Hin].
    now rewrite Hs in Hin.
  - unfold is_valid_excel_file.
    assert (Hc : contains "._" ("._" ++ pre ++ ".XLSX") = true)
      by exact (contains_app "._" "" (pre ++ ".XLSX")).
    now rewrite Hc, orb_true_r.
Qed.
